(** * hexdoc: the HTML renderer of [doc/src/collate_data.py]

    A shallow embedding of the book renderer (markup emitter, style
    formatter, format tree walker, page / entry / category / book
    renderers and the template splicer) and the properties of it that the
    specification states.

    Conventions of the embedding.
    - A Python [str] is a Rocq [string] holding its text.  Python takes
      the character classes of [str.split], [str.strip],
      [str.splitlines], [str.lower] and [repr] from the Unicode
      database of the interpreter; here they are the ASCII classes, so
      these five functions are Python's on ASCII text ([is_ascii]), and
      a property that reads one of them on a text that is not fixed is
      stated for ASCII text.  The other string functions ([escape],
      [replace], [startswith], [in], [split] on a separator) work
      character by character and are Python's on every text.
    - Pages, entries, categories and the book are the validated data the
      loader hands over: records of the keys the renderer reads, with the
      types of the data model; an optional field is a key that may be
      absent.
    - The output stream is kept as the sequence of the calls that printed
      to it ([Emit]); [getvalue] joins what they printed.
    - A function that prints and may raise is a computation [M A]: what
      it appends to the stream, together with the value it returns or
      the exception it raises. *)

From Stdlib Require Import String Ascii List ZArith Bool Lia.
From stdpp Require Import base option list gmap sets strings pretty.

Local Open Scope string_scope.
Local Open Scope list_scope.

(** ** Python strings *)

Module Str.

Definition nl : string := String "010"%char "".
Definition dquote : ascii := "034"%char.
Definition squote : ascii := "039"%char.
Definition backslash : ascii := "092"%char.

(** [sep.join(parts)] with the empty separator. *)
Definition join (parts : list string) : string :=
  fold_right String.append "" parts.

(** [s.startswith(p)] *)
Definition startswith (p s : string) : bool := String.prefix p s.

(** [sub in s] *)
Fixpoint contains (sub s : string) : bool :=
  String.prefix sub s ||
  match s with
  | EmptyString => false
  | String _ s' => contains sub s'
  end.

(** [s.replace(old, new)] for a pattern [old] of one character, the
    only kind the renderer uses. *)
Fixpoint replace (old : ascii) (new : string) (s : string) : string :=
  match s with
  | EmptyString => ""
  | String c s' =>
      (if Ascii.eqb c old then new else String c "") +:+ replace old new s'
  end.

(** [html.escape(s)] with [quote=True]. *)
Definition escape_char (c : ascii) : string :=
  if Ascii.eqb c "&" then "&amp;"
  else if Ascii.eqb c "<" then "&lt;"
  else if Ascii.eqb c ">" then "&gt;"
  else if Ascii.eqb c dquote then "&quot;"
  else if Ascii.eqb c squote then "&#x27;"
  else String c "".

Fixpoint escape (s : string) : string :=
  match s with
  | EmptyString => ""
  | String c s' => escape_char c +:+ escape s'
  end.

(** [s.split(sep)] for a separator of one character: the pieces
    between the separators, at least one. *)
Fixpoint split_on_acc (sep : ascii) (cur : string) (s : string) : list string :=
  match s with
  | EmptyString => [cur]
  | String c s' =>
      if Ascii.eqb c sep then cur :: split_on_acc sep "" s'
      else split_on_acc sep (cur +:+ String c "") s'
  end.

Definition split_on (sep : ascii) (s : string) : list string :=
  split_on_acc sep "" s.

(** White space of ASCII text: tab, line feed, vertical tab, form feed,
    carriage return, the four separators 28..31, and space.  (Python
    also takes the white space outside ASCII, such as U+00A0.) *)
Definition isspace (c : ascii) : bool :=
  let n := nat_of_ascii c in
  ((9 <=? n) && (n <=? 13) || (28 <=? n) && (n <=? 32))%nat.

(** [s.split()]: the maximal runs of characters that are not white
    space. *)
Fixpoint split_acc (cur : string) (s : string) : list string :=
  match s with
  | EmptyString => if String.eqb cur "" then [] else [cur]
  | String c s' =>
      if isspace c
      then (if String.eqb cur "" then [] else [cur]) ++ split_acc "" s'
      else split_acc (cur +:+ String c "") s'
  end.

Definition split (s : string) : list string := split_acc "" s.

(** Line boundaries of [str.splitlines] in ASCII text: line feed,
    vertical tab, form feed, carriage return (a carriage return and the
    line feed after it count as one boundary) and the separators 28..30.
    (Python also ends a line at U+0085, U+2028 and U+2029.) *)
Definition islinebreak (c : ascii) : bool :=
  let n := nat_of_ascii c in
  ((10 <=? n) && (n <=? 13) || (28 <=? n) && (n <=? 30))%nat.

(** [s.splitlines(True)]: the lines with their line ends kept. *)
Fixpoint splitlines_acc (cur : string) (s : string) : list string :=
  match s with
  | EmptyString => if String.eqb cur "" then [] else [cur]
  | String c s' =>
      if Ascii.eqb c "013" then
        match s' with
        | String "010"%char s'' =>
            (cur +:+ String c nl) :: splitlines_acc "" s''
        | _ => (cur +:+ String c "") :: splitlines_acc "" s'
        end
      else if islinebreak c then (cur +:+ String c "") :: splitlines_acc "" s'
      else splitlines_acc (cur +:+ String c "") s'
  end.

Definition splitlines (s : string) : list string := splitlines_acc "" s.

(** [s.strip()] *)
Fixpoint lstrip (s : string) : string :=
  match s with
  | EmptyString => ""
  | String c s' => if isspace c then lstrip s' else s
  end.

Fixpoint rstrip (s : string) : string :=
  match s with
  | EmptyString => ""
  | String c s' =>
      match rstrip s' with
      | EmptyString => if isspace c then "" else String c ""
      | r => String c r
      end
  end.

Definition strip (s : string) : string := rstrip (lstrip s).

(** [s.lower()] of ASCII text.  (Python also lowers the capitals
    outside ASCII.) *)
Definition lower_char (c : ascii) : ascii :=
  let n := nat_of_ascii c in
  if ((65 <=? n) && (n <=? 90))%nat then ascii_of_nat (n + 32) else c.

Fixpoint lower (s : string) : string :=
  match s with
  | EmptyString => ""
  | String c s' => String (lower_char c) (lower s')
  end.

(** The characters of a string, as [for c in s] yields them. *)
Fixpoint chars (s : string) : list string :=
  match s with
  | EmptyString => []
  | String c s' => String c "" :: chars s'
  end.

(** [repr(s)] of ASCII text.  The quote is the double quote when [s] has
    a single quote and no double quote, and the single quote otherwise;
    the quote and the backslash are written after a backslash, tab, line
    feed and carriage return as [\t], [\n], [\r], and every other
    control character as [\x] and two hexadecimal digits.  (Python also
    escapes the characters outside ASCII that are not printable.) *)
Definition hexdigit (n : nat) : ascii :=
  if (n <? 10)%nat then ascii_of_nat (48 + n) else ascii_of_nat (87 + n).

Definition repr_char (quote : ascii) (c : ascii) : string :=
  let n := nat_of_ascii c in
  if Ascii.eqb c quote || Ascii.eqb c backslash then String backslash (String c "")
  else if Ascii.eqb c "009" then String backslash "t"
  else if Ascii.eqb c "010" then String backslash "n"
  else if Ascii.eqb c "013" then String backslash "r"
  else if ((n <? 32) || (n =? 127))%nat then
    String backslash (String "x" (String (hexdigit (n / 16)) (String (hexdigit (n mod 16)) "")))
  else String c "".

Fixpoint repr_body (quote : ascii) (s : string) : string :=
  match s with
  | EmptyString => ""
  | String c s' => repr_char quote c +:+ repr_body quote s'
  end.

Definition repr_quote (s : string) : ascii :=
  if contains (String squote "") s && negb (contains (String dquote "") s)
  then dquote else squote.

Definition repr (s : string) : string :=
  let q := repr_quote s in
  String q (repr_body q s +:+ String q "").

End Str.

(** ** Python values and exceptions *)

(** The values that reach the emitter as attribute values and the style
    formatter as style values: [None], booleans, integers, strings and
    dictionaries from strings to strings. *)
Inductive PyVal :=
| VNone
| VBool (b : bool)
| VInt (z : Z)
| VStr (s : string)
| VDict (items : list (string * string)).

(** [", ".join(parts)] *)
Fixpoint join_comma (parts : list string) : string :=
  match parts with
  | [] => ""
  | [p] => p
  | p :: ps => p +:+ ", " +:+ join_comma ps
  end.

(** [str(value)] *)
Definition py_str (v : PyVal) : string :=
  match v with
  | VNone => "None"
  | VBool b => if b then "True" else "False"
  | VInt z => pretty z
  | VStr s => s
  | VDict items =>
      "{" +:+ join_comma (map (fun kv => Str.repr kv.1 +:+ ": " +:+ Str.repr kv.2) items) +:+ "}"
  end.

(** The truth value of [value] in a condition. *)
Definition truthy (v : PyVal) : bool :=
  match v with
  | VNone => false
  | VBool b => b
  | VInt z => negb (Z.eqb z 0)
  | VStr s => negb (String.eqb s "")
  | VDict items => match items with [] => false | _ => true end
  end.

(** The exceptions the renderer can raise.  [ValueError msg] is the one
    [get_format] raises; [UnpackError] is the [ValueError] of a tuple
    unpacking with the wrong number of values. *)
Inductive Exn :=
| ValueError (msg : string)
| UnpackError
| KeyError (key : string)
| IndexError
| TypeError
| AttributeError.

Inductive Res (A : Type) :=
| Ok (a : A)
| Raise (e : Exn).
Arguments Ok {A} a.
Arguments Raise {A} e.

(** [d[key]] on an optional field. *)
Definition getitem {A} (key : string) (field : option A) : Res A :=
  match field with
  | Some a => Ok a
  | None => Raise (KeyError key)
  end.

(** ** The output stream *)

(** One constructor per place of the source that prints. *)
Inductive Emit :=
| EOpen (name kwargs : string)    (* PairTag.__enter__ *)
| EClose (name : string)          (* PairTag.__exit__ *)
| ETag (name kwargs : string)     (* Stream.tag *)
| EText (txt : string)            (* Stream.text *)
| EPrint (s : string).            (* print in generate_docs *)

Definition printed (e : Emit) : string :=
  match e with
  | EOpen name kwargs => "<" +:+ name +:+ kwargs +:+ ">"
  | EClose name => "</" +:+ name +:+ ">"
  | ETag name kwargs => "<" +:+ name +:+ kwargs +:+ " />"
  | EText txt => Str.escape txt
  | EPrint s => s
  end.

Definition getvalue (out : list Emit) : string :=
  Str.join (map printed out).

(** A computation prints and then returns a value or raises: what it
    appends to the stream, and its result. *)
Definition M (A : Type) : Type := (list Emit * Res A)%type.

Definition ret {A} (a : A) : M A := ([], Ok a).

Definition raise {A} (e : Exn) : M A := ([], Raise e).

Definition bind {A B} (m : M A) (k : A -> M B) : M B :=
  match m with
  | (out, Ok a) => let '(out', r) := k a in (out ++ out', r)
  | (out, Raise e) => (out, Raise e)
  end.

Definition lift {A} (r : Res A) : M A := ([], r).

Definition emit (e : Emit) : M unit := ([e], Ok tt).

Declare Scope render_scope.
Delimit Scope render_scope with render.
Notation "x <- m ;; k" := (bind m (fun x => k))
  (at level 100, m at next level, k at level 200, right associativity) : render_scope.
Notation "m ;; k" := (bind m (fun _ => k))
  (at level 100, k at level 200, right associativity) : render_scope.
Local Open Scope render_scope.

(** [for x in xs: body x] *)
Definition for_ {A} (body : A -> M unit) : list A -> M unit :=
  fix go (xs : list A) : M unit :=
    match xs with
    | [] => ret tt
    | x :: xs' => body x ;; go xs'
    end.

(** [if cond: body] *)
Definition when (cond : bool) (body : M unit) : M unit :=
  if cond then body else ret tt.

(** ** Markup emitter *)

Definition tag_args (kwargs : list (string * PyVal)) : string :=
  Str.join
    (map (fun kv =>
            " " +:+ (if String.eqb kv.1 "clazz" then "class"
                     else Str.replace "_" "-" kv.1)
            +:+ "=" +:+ Str.repr (Str.escape (py_str kv.2)))
         kwargs).

(** The two context managers: [PairTag], which holds the tag name and
    the attributes already formatted by [tag_args], and [Empty]. *)
Inductive Ctx :=
| PairTag (name kwargs : string)
| Empty.

Definition enter (c : Ctx) : list Emit :=
  match c with
  | PairTag name kwargs => [EOpen name kwargs]
  | Empty => []
  end.

Definition exit (c : Ctx) : list Emit :=
  match c with
  | PairTag name _ => [EClose name]
  | Empty => []
  end.

(** [with c: body].  [__exit__] runs when the body returns and when it
    raises; it returns [None], so an exception of the body goes on to
    the caller. *)
Definition with_ {A} (c : Ctx) (body : M A) : M A :=
  let '(out, r) := body in
  (enter c ++ out ++ exit c, r).

Module Stream.

Definition tag (name : string) (kwargs : list (string * PyVal)) : M unit :=
  emit (ETag name (tag_args kwargs)).

Definition pair_tag (name : string) (kwargs : list (string * PyVal)) : Ctx :=
  PairTag name (tag_args kwargs).

Definition pair_tag_if (cond : PyVal) (name : string)
    (kwargs : list (string * PyVal)) : Ctx :=
  if truthy cond then pair_tag name kwargs else Empty.

Definition empty_pair_tag (name : string) (kwargs : list (string * PyVal)) : M unit :=
  with_ (pair_tag name kwargs) (ret tt).

Definition text (txt : string) : M unit :=
  emit (EText txt).

End Stream.

(** ** Format trees *)

(** [block.style]: the style type and its value. *)
Record Style := { type : string; value : PyVal }.

Set Warnings "-register-all".

(** What [write_block] is given: a [str], or a [FormatTree] with a style
    and children that are again of either kind. *)
Inductive Block :=
| BStr (s : string)
| BTree (style : Style) (children : list Block).

(** ** Style formatter *)

(** A dictionary passed as [**value] to [pair_tag(self, name, **kwargs)]
    and on to [PairTag(stream, name, **kwargs)] may not name one of their
    positional parameters. *)
Definition positional (key : string) : bool :=
  String.eqb key "self" || String.eqb key "name" || String.eqb key "stream".

Definition str_items (items : list (string * string)) : list (string * PyVal) :=
  map (fun kv => (kv.1, VStr kv.2)) items.

Definition get_format (ty : string) (value : PyVal) : Res Ctx :=
  if String.eqb ty "para" then
    match value with
    | VDict items =>
        if existsb (fun kv => positional kv.1) items then Raise TypeError
        else Ok (Stream.pair_tag "p" (str_items items))
    | _ => Raise TypeError
    end
  else if String.eqb ty "color" then
    Ok (Stream.pair_tag "span" [("style", VStr ("color: #" +:+ py_str value))])
  else if String.eqb ty "link" then
    match value with
    | VStr link =>
        let link :=
          if negb (Str.contains "://" link)
          then "#" +:+ Str.replace "#" "@" link
          else link in
        Ok (Stream.pair_tag "a" [("href", VStr link)])
    | VDict items =>
        (* [in] tests the keys; a dictionary has no [replace] *)
        if negb (existsb (fun kv => String.eqb kv.1 "://") items)
        then Raise AttributeError
        else Ok (Stream.pair_tag "a" [("href", value)])
    | _ => Raise TypeError
    end
  else if String.eqb ty "tooltip" then
    Ok (Stream.pair_tag "span" [("clazz", VStr "has-tooltip"); ("title", value)])
  else if String.eqb ty "cmd_click" then
    match value with
    | VStr v =>
        Ok (Stream.pair_tag "span"
              [("clazz", VStr "has-cmd_click");
               ("title", VStr ("When clicked, would execute: " +:+ v))])
    | _ => Raise TypeError
    end
  else if String.eqb ty "obf" then
    Ok (Stream.pair_tag "span" [("clazz", VStr "obfuscated")])
  else if String.eqb ty "bold" then Ok (Stream.pair_tag "strong" [])
  else if String.eqb ty "italic" then Ok (Stream.pair_tag "i" [])
  else if String.eqb ty "strikethrough" then Ok (Stream.pair_tag "s" [])
  else if String.eqb ty "underline" then
    Ok (Stream.pair_tag "span" [("style", VStr "text-decoration: underline")])
  else Raise (ValueError ("Unknown format type: " +:+ ty)).

(** ** The book *)

Module Page.

Record Pattern := {
  angle_sig : string;
  direction : string;
  is_per_world : bool
}.

(** [page["item_name"]] is a string on a spotlight page and a list of
    strings on a crafting page. *)
Inductive ItemName :=
| OneName (s : string)
| Names (l : list string).

(** The elements a [for] loop or an index sees. *)
Definition elements (v : ItemName) : list string :=
  match v with
  | OneName s => Str.chars s
  | Names l => l
  end.

(** A page: the keys the renderer reads; [None] is an absent key. *)
Record t := {
  type : option string;
  anchor : option string;
  header : option string;
  title : option string;
  text : option Block;
  url : option string;
  link_text : option string;
  item_name : option ItemName;
  images : option (list string);
  output_name : option string;
  name : option string;
  input : option string;
  output : option string;
  op : option (list Pattern)
}.

(** [page] without its ["anchor"] key. *)
Definition without_anchor (page : t) : t :=
  {| type := type page; anchor := None; header := header page;
     title := title page; text := text page; url := url page;
     link_text := link_text page; item_name := item_name page;
     images := images page; output_name := output_name page;
     name := name page; input := input page; output := output page;
     op := op page |}.

End Page.

Module Entry.

(** [advancement] is [entry.get("advancement", None)]. *)
Record t := {
  id : string;
  name : Block;
  pages : list Page.t;
  advancement : option string
}.

End Entry.

Module Category.

Record t := {
  id : string;
  name : Block;
  description : Block;
  entries : list Entry.t
}.

End Category.

Module Book.

(** [spoilers] is a set of Python values: the strings the template adds
    and whatever the loader put there, [None] being the one value besides
    strings that an entry's advancement can be. *)
Record t := {
  name : Block;
  landing_text : Block;
  categories : list Category.t;
  blacklist : gset string;
  spoilers : gset (option string)
}.

(** [book.blacklist.update(ids)] *)
Definition update_blacklist (book : t) (ids : list string) : t :=
  {| name := name book; landing_text := landing_text book;
     categories := categories book;
     blacklist := blacklist book ∪ list_to_set ids;
     spoilers := spoilers book |}.

(** [book.spoilers.update(keys)] *)
Definition update_spoilers (book : t) (keys : list string) : t :=
  {| name := name book; landing_text := landing_text book;
     categories := categories book;
     blacklist := blacklist book;
     spoilers := spoilers book ∪ list_to_set (map Some keys) |}.

End Book.

(** ** Spoilers *)

Definition entry_spoilered (root_info : Book.t) (entry : Entry.t) : bool :=
  bool_decide (Entry.advancement entry ∈ Book.spoilers root_info).

Definition category_spoilered (root_info : Book.t) (category : Category.t) : bool :=
  forallb (entry_spoilered root_info) (Category.entries category).

(** ** Format tree walker *)

(** The loop of [write_block] over the lines of a string; [first] is the
    flag of the source, false before the first line only. *)
Fixpoint write_lines (first : bool) (lines : list string) : M unit :=
  match lines with
  | [] => ret tt
  | line :: rest =>
      when first (Stream.tag "br" []) ;;
      Stream.text line ;;
      write_lines true rest
  end.

Fixpoint write_block (block : Block) : M unit :=
  match block with
  | BStr s => write_lines false (Str.split_on "010" s)
  | BTree style children =>
      let sty_type := type style in
      if String.eqb sty_type "base" then for_ write_block children
      else
        tag <- lift (get_format sty_type (value style)) ;;
        with_ tag (for_ write_block children)
  end.

(** ** Page renderer *)

(** The namespace-to-base-URL table. *)
Definition repo_names : gmap string string :=
  {[ "hexcasting" :=
       "https://raw.githubusercontent.com/gamma-delta/HexMod/main/Common/src/main/resources" ]}.

Definition anchor_toc : M unit :=
  with_ (Stream.pair_tag "a"
           [("href", VStr "#table-of-contents");
            ("clazz", VStr "permalink small");
            ("title", VStr "Jump to top")])
    (Stream.empty_pair_tag "i" [("clazz", VStr "bi bi-box-arrow-up")]).

Definition permalink (link : string) : M unit :=
  with_ (Stream.pair_tag "a"
           [("href", VStr link);
            ("clazz", VStr "permalink small");
            ("title", VStr "Permalink")])
    (Stream.empty_pair_tag "i" [("clazz", VStr "bi bi-link-45deg")]).

(** An optional string as a Python value. *)
Definition opt_val (o : option string) : PyVal :=
  match o with
  | Some s => VStr s
  | None => VNone
  end.

(** [x or ""] *)
Definition or_empty (o : option string) : string :=
  match o with
  | Some s => s
  | None => ""
  end.

(** The [anchor_id] of [write_page]: set when [page.get("anchor")] is
    true as a condition. *)
Definition page_anchor_id (pageid : string) (page : Page.t) : option string :=
  match Page.anchor page with
  | Some anchor =>
      if truthy (VStr anchor) then Some (pageid +:+ "@" +:+ anchor) else None
  | None => None
  end.

(** [if anchor_id: permalink(out, "#" + anchor_id)] *)
Definition permalink_if (anchor_id : option string) : M unit :=
  match anchor_id with
  | Some a => when (truthy (VStr a)) (permalink ("#" +:+ a))
  | None => ret tt
  end.

(** [if "text" in page: write_block(out, page["text"])] *)
Definition write_text_if (page : Page.t) : M unit :=
  match Page.text page with
  | Some t => write_block t
  | None => ret tt
  end.

(** [write_block(out, page["text"])] *)
Definition write_text (page : Page.t) : M unit :=
  t <- lift (getitem "text" (Page.text page)) ;;
  write_block t.

(** The loop of the crafting page over the item names; [first] is the
    flag of the source, true before the first name only. *)
Fixpoint write_names (first : bool) (names : list string) : M unit :=
  match names with
  | [] => ret tt
  | name :: rest =>
      when (negb first) (Stream.text " and ") ;;
      with_ (Stream.pair_tag "code" []) (Stream.text name) ;;
      write_names false rest
  end.

(** The body of the loop of the image page. *)
Definition write_image (img : string) : M unit :=
  match Str.split_on ":" img with
  | [modid; coords] =>
      base <- lift (getitem modid (repo_names !! modid)) ;;
      Stream.empty_pair_tag "img"
        [("src", VStr (base +:+ "/assets/" +:+ modid +:+ "/" +:+ coords))]
  | _ => raise UnpackError
  end.

(** [recipes[0]] *)
Definition first_of (recipes : list string) : Res string :=
  match recipes with
  | r :: _ => Ok r
  | [] => Raise IndexError
  end.

(** The body of the loop of the pattern pages. *)
Definition write_pattern (pattern : Page.Pattern) : M unit :=
  with_ (Stream.pair_tag "canvas"
           [("clazz", VStr "spell-viz");
            ("width", VInt 216);
            ("height", VInt 216);
            ("data_string", VStr (Page.angle_sig pattern));
            ("data_start", VStr (Str.lower (Page.direction pattern)));
            ("data_per_world", VBool (Page.is_per_world pattern))])
    (Stream.text
       ("Your browser does not support visualizing patterns. Pattern code: "
        +:+ Page.angle_sig pattern)).

(** The title of the page, written when it has a header or a title. *)
Definition write_page_header (anchor_id : option string) (page : Page.t) : M unit :=
  match Page.header page, Page.title page with
  | None, None => ret tt
  | Some h, _ | None, Some h =>
      with_ (Stream.pair_tag "h4" [])
        (Stream.text h ;; permalink_if anchor_id)
  end.

(** The dispatch of [write_page] on the page type. *)
Definition write_page_body (anchor_id : option string) (ty : string)
    (page : Page.t) : M unit :=
  if String.eqb ty "patchouli:text" then write_text page
  else if String.eqb ty "patchouli:empty" then ret tt
  else if String.eqb ty "patchouli:link" then
    write_text page ;;
    with_ (Stream.pair_tag "h4" [("clazz", VStr "linkout")])
      (url <- lift (getitem "url" (Page.url page)) ;;
       with_ (Stream.pair_tag "a" [("href", VStr url)])
         (link_text <- lift (getitem "link_text" (Page.link_text page)) ;;
          Stream.text link_text))
  else if String.eqb ty "patchouli:spotlight" then
    with_ (Stream.pair_tag "h4" [("clazz", VStr "spotlight-title page-header")])
      (item_name <- lift (getitem "item_name" (Page.item_name page)) ;;
       match item_name with
       | Page.OneName s => Stream.text s
       | Page.Names _ => raise AttributeError
       end) ;;
    write_text_if page
  else if String.eqb ty "patchouli:crafting" then
    with_ (Stream.pair_tag "blockquote" [("clazz", VStr "crafting-info")])
      (Stream.text "Depicted in the book: The crafting recipe for the " ;;
       item_name <- lift (getitem "item_name" (Page.item_name page)) ;;
       write_names true (Page.elements item_name) ;;
       Stream.text ".") ;;
    write_text_if page
  else if String.eqb ty "patchouli:image" then
    with_ (Stream.pair_tag "p" [("clazz", VStr "img-wrapper")])
      (images <- lift (getitem "images" (Page.images page)) ;;
       for_ write_image images) ;;
    write_text_if page
  else if String.eqb ty "hexcasting:crafting_multi" then
    item_name <- lift (getitem "item_name" (Page.item_name page)) ;;
    let recipes := Page.elements item_name in
    with_ (Stream.pair_tag "blockquote" [("clazz", VStr "crafting-info")])
      (Stream.text "Depicted in the book: Several crafting recipes, for the " ;;
       with_ (Stream.pair_tag "code" [])
         (r <- lift (first_of recipes) ;; Stream.text r) ;;
       for_ (fun i =>
               Stream.text ", " ;;
               with_ (Stream.pair_tag "code" []) (Stream.text i))
         (tail recipes) ;;
       Stream.text ".") ;;
    write_text_if page
  else if String.eqb ty "hexcasting:brainsweep" then
    with_ (Stream.pair_tag "blockquote" [("clazz", VStr "crafting-info")])
      (Stream.text "Depicted in the book: A mind-flaying recipe producing the " ;;
       with_ (Stream.pair_tag "code" [])
         (output_name <- lift (getitem "output_name" (Page.output_name page)) ;;
          Stream.text output_name) ;;
       Stream.text ".") ;;
    write_text_if page
  else if String.eqb ty "hexcasting:pattern"
          || String.eqb ty "hexcasting:manual_pattern_nosig"
          || String.eqb ty "hexcasting:manual_pattern" then
    match Page.name page with
    | Some name =>
        with_ (Stream.pair_tag "h4" [("clazz", VStr "pattern-title")])
          (let inp := or_empty (Page.input page) in
           let oup := or_empty (Page.output page) in
           let pipe := Str.strip (inp +:+ " → " +:+ oup) in
           let suffix :=
             if truthy (VStr inp) || truthy (VStr oup)
             then " (" +:+ pipe +:+ ")" else "" in
           Stream.text (name +:+ suffix) ;;
           permalink_if anchor_id)
    | None => ret tt
    end ;;
    with_ (Stream.pair_tag "details" [("clazz", VStr "spell-collapsible")])
      (Stream.empty_pair_tag "summary" [("clazz", VStr "collapse-spell")] ;;
       op <- lift (getitem "op" (Page.op page)) ;;
       for_ write_pattern op) ;;
    write_text page
  else
    with_ (Stream.pair_tag "p" [("clazz", VStr "todo-note")])
      (Stream.text ("TODO: Missing processor for type: " +:+ ty)) ;;
    write_text_if page.

Definition write_page (pageid : string) (page : Page.t) : M unit :=
  let anchor_id := page_anchor_id pageid page in
  with_ (Stream.pair_tag_if (opt_val anchor_id) "div" [("id", opt_val anchor_id)])
    (write_page_header anchor_id page ;;
     ty <- lift (getitem "type" (Page.type page)) ;;
     write_page_body anchor_id ty page) ;;
  Stream.tag "br" [].

(** ** Entry, category and book renderers *)

(** [out.text(x)] for a name [x] that is a [str] or a [FormatTree]:
    [html.escape] calls [x.replace], which only a [str] has. *)
Definition text_of (x : Block) : M unit :=
  match x with
  | BStr s => Stream.text s
  | BTree _ _ => raise AttributeError
  end.

Definition write_entry (book : Book.t) (entry : Entry.t) : M unit :=
  with_ (Stream.pair_tag "div" [("id", VStr (Entry.id entry))])
    (with_ (Stream.pair_tag_if (VBool (entry_spoilered book entry)) "div"
              [("clazz", VStr "spoilered")])
       (with_ (Stream.pair_tag "h3" [("clazz", VStr "entry-title page-header")])
          (write_block (Entry.name entry) ;;
           anchor_toc ;;
           permalink ("#" +:+ Entry.id entry)) ;;
        for_ (write_page (Entry.id entry)) (Entry.pages entry))).

Definition write_category (book : Book.t) (category : Category.t) : M unit :=
  with_ (Stream.pair_tag "section" [("id", VStr (Category.id category))])
    (with_ (Stream.pair_tag_if (VBool (category_spoilered book category)) "div"
              [("clazz", VStr "spoilered")])
       (with_ (Stream.pair_tag "h2" [("clazz", VStr "category-title page-header")])
          (write_block (Category.name category) ;;
           anchor_toc ;;
           permalink ("#" +:+ Category.id category)) ;;
        write_block (Category.description category)) ;;
     for_ (fun entry =>
             when (negb (bool_decide (Entry.id entry ∈ Book.blacklist book)))
               (write_entry book entry))
       (Category.entries category)).

Definition write_toc (book : Book.t) : M unit :=
  with_ (Stream.pair_tag "h2"
           [("id", VStr "table-of-contents"); ("clazz", VStr "page-header")])
    (Stream.text "Table of Contents" ;;
     with_ (Stream.pair_tag "a"
              [("href", VStr "javascript:void(0)");
               ("clazz", VStr "permalink toggle-link small");
               ("data_target", VStr "toc-category");
               ("title", VStr "Toggle all")])
       (Stream.empty_pair_tag "i" [("clazz", VStr "bi bi-list-nested")]) ;;
     permalink "#table-of-contents") ;;
  for_ (fun category =>
          with_ (Stream.pair_tag "details" [("clazz", VStr "toc-category")])
            (with_ (Stream.pair_tag "summary" [])
               (with_ (Stream.pair_tag "a"
                         [("href", VStr ("#" +:+ Category.id category));
                          ("clazz",
                           VStr (if category_spoilered book category
                                 then "spoilered" else ""))])
                  (text_of (Category.name category))) ;;
             with_ (Stream.pair_tag "ul" [])
               (for_ (fun entry =>
                        with_ (Stream.pair_tag "li" [])
                          (with_ (Stream.pair_tag "a"
                                    [("href", VStr ("#" +:+ Entry.id entry));
                                     ("clazz",
                                      VStr (if entry_spoilered book entry
                                            then "spoilered" else ""))])
                             (text_of (Entry.name entry))))
                  (Category.entries category))))
    (Book.categories book).

Definition write_book (book : Book.t) : M unit :=
  with_ (Stream.pair_tag "div" [("clazz", VStr "container")])
    (with_ (Stream.pair_tag "header" [("clazz", VStr "jumbotron")])
       (with_ (Stream.pair_tag "h1" [("clazz", VStr "book-title")])
          (write_block (Book.name book)) ;;
        write_block (Book.landing_text book)) ;;
     with_ (Stream.pair_tag "nav" []) (write_toc book) ;;
     with_ (Stream.pair_tag "main" [("clazz", VStr "book-body")])
       (for_ (write_category book) (Book.categories book))).

(** ** Template splicer *)

(** [_, *rest = line.split()] *)
Definition rest_of_split (line : string) : Res (list string) :=
  match Str.split line with
  | _ :: rest => Ok rest
  | [] => Raise UnpackError
  end.

(** The body of the loop of [generate_docs] over the lines of the
    template: the book with its sets updated is the result. *)
Definition splice_line (book : Book.t) (line : string) : M Book.t :=
  book <- (if Str.startswith "#DO_NOT_RENDER" line then
             blacklist <- lift (rest_of_split line) ;;
             ret (Book.update_blacklist book blacklist)
           else ret book) ;;
  if Str.startswith "#SPOILER" line then
    spoilers <- lift (rest_of_split line) ;;
    ret (Book.update_spoilers book spoilers)
  else if String.eqb line ("#DUMP_BODY_HERE" +:+ Str.nl) then
    write_book book ;;
    emit (EPrint Str.nl) ;;
    ret book
  else
    emit (EPrint line) ;;
    ret book.

Fixpoint splice (book : Book.t) (lines : list string) : M Book.t :=
  match lines with
  | [] => ret book
  | line :: rest =>
      book' <- splice_line book line ;;
      splice book' rest
  end.

(** The output starts empty; an exception leaves [generate_docs] without
    a value. *)
Definition generate_docs (book : Book.t) (template : string) : Res string :=
  match splice book (Str.splitlines template) with
  | (output, Ok _) => Ok (getvalue output)
  | (_, Raise e) => Raise e
  end.

(** * Properties *)

(** ** Vocabulary of the specification *)

(** A string with every character changed by [f]. *)
Fixpoint map_chars (f : ascii -> ascii) (s : string) : string :=
  match s with
  | EmptyString => ""
  | String c s' => String (f c) (map_chars f s')
  end.

(** The attribute name as emitted: [class] for [clazz], and otherwise
    the name with a hyphen for each underscore. *)
Definition attr_name (key : string) : string :=
  if String.eqb key "clazz" then "class"
  else map_chars (fun c => if Ascii.eqb c "_" then "-"%char else c) key.

(** The local anchor of a link: an at sign for each hash sign. *)
Definition at_for_hash (s : string) : string :=
  map_chars (fun c => if Ascii.eqb c "#" then "@"%char else c) s.

(** ASCII text: every character is below 128. *)
Fixpoint is_ascii (s : string) : bool :=
  match s with
  | EmptyString => true
  | String c s' => (nat_of_ascii c <? 128)%nat && is_ascii s'
  end.

(** A character that [repr] writes as it is, whatever the quote: a
    printable ASCII character (32..126) that is not a backslash. *)
Definition plain_char (c : ascii) : bool :=
  let n := nat_of_ascii c in
  ((32 <=? n) && (n <? 127) && negb (n =? 92))%nat.

Fixpoint plain (s : string) : bool :=
  match s with
  | EmptyString => true
  | String c s' => plain_char c && plain s'
  end.

(** The attributes as the specification words them: the name, and the
    value as a string, escaped, between two quotes [q]. *)
Definition quoted_args (q : string) (kwargs : list (string * PyVal)) : string :=
  Str.join
    (map (fun kv =>
            " " +:+ attr_name kv.1 +:+ "=" +:+ q
            +:+ Str.escape (py_str kv.2) +:+ q)
       kwargs).

(** The text of a piece of markup: what [Stream.text] was given, which
    is what a reader of the escaped output gets back. *)
Fixpoint text_content (out : list Emit) : string :=
  match out with
  | [] => ""
  | EText txt :: out' => txt +:+ text_content out'
  | _ :: out' => text_content out'
  end.

(** Nesting: reading the output from the left with the stack of the
    tags that are open, an opening tag is pushed and a closing tag must
    be the one on top. *)
Fixpoint nesting (stack : list string) (out : list Emit) : option (list string) :=
  match out with
  | [] => Some stack
  | EOpen name _ :: out' => nesting (name :: stack) out'
  | EClose name :: out' =>
      match stack with
      | top :: stack' =>
          if String.eqb name top then nesting stack' out' else None
      | [] => None
      end
  | _ :: out' => nesting stack out'
  end.

Definition well_nested (out : list Emit) : Prop :=
  nesting [] out = Some [].

Definition is_open (e : Emit) : bool :=
  match e with EOpen _ _ => true | _ => false end.

Definition is_close (e : Emit) : bool :=
  match e with EClose _ => true | _ => false end.

Definition count (p : Emit -> bool) (out : list Emit) : nat :=
  length (filter (fun e => p e = true) out).

(** Output that leaves every stack of open tags as it found it, with as
    many opening as closing tags. *)
Definition tidy (out : list Emit) : Prop :=
  (forall stack, nesting stack out = Some stack)
  /\ count is_open out = count is_close out.

(** A name in a [code] element. *)
Definition code (x : string) : list Emit :=
  [EOpen "code" ""; EText x; EClose "code"].

(** The callout of a [crafting_multi] page with the recipes [r], [rs]. *)
Definition multi_callout (r : string) (rs : list string) : list Emit :=
  [EOpen "blockquote" " class='crafting-info'";
   EText "Depicted in the book: Several crafting recipes, for the "]
  ++ code r
  ++ flat_map (fun i => EText ", " :: code i) rs
  ++ [EText "."; EClose "blockquote"].

(** The phrase of the specification for the recipes [r], [rs]. *)
Definition several_recipes (r : string) (rs : list string) : string :=
  "Several crafting recipes, for the " +:+ r
  +:+ Str.join (map (fun i => ", " +:+ i) rs) +:+ ".".

(** The marker paragraph of a page of a type without processor. *)
Definition missing_processor (ty : string) : list Emit :=
  [EOpen "p" " class='todo-note'";
   EText ("TODO: " +:+ "Missing processor for type: " +:+ ty);
   EClose "p"].

(** The page types that [write_page] has a processor for. *)
Definition recognized : list string :=
  ["patchouli:text"; "patchouli:empty"; "patchouli:link";
   "patchouli:spotlight"; "patchouli:crafting"; "patchouli:image";
   "hexcasting:crafting_multi"; "hexcasting:brainsweep";
   "hexcasting:pattern"; "hexcasting:manual_pattern_nosig";
   "hexcasting:manual_pattern"].

(** The style types that [get_format] knows. *)
Definition style_tags : list string :=
  ["para"; "color"; "link"; "tooltip"; "cmd_click"; "obf"; "bold";
   "italic"; "strikethrough"; "underline"].

(** A page with a type and nothing else. *)
Definition page_of_type (ty : string) : Page.t :=
  {| Page.type := Some ty; Page.anchor := None; Page.header := None;
     Page.title := None; Page.text := None; Page.url := None;
     Page.link_text := None; Page.item_name := None; Page.images := None;
     Page.output_name := None; Page.name := None; Page.input := None;
     Page.output := None; Page.op := None |}.

(** The end-to-end scenario: a book with one category holding the
    entries [e1], of advancement [adv1], and [e2], and a template with a
    blacklist directive for [e2], a spoiler directive for [adv1] and the
    marker line. *)
Definition scenario_page (body : string) : Page.t :=
  {| Page.type := Some "patchouli:text"; Page.anchor := None;
     Page.header := None; Page.title := None; Page.text := Some (BStr body);
     Page.url := None; Page.link_text := None; Page.item_name := None;
     Page.images := None; Page.output_name := None; Page.name := None;
     Page.input := None; Page.output := None; Page.op := None |}.

Definition scenario_e1 : Entry.t :=
  {| Entry.id := "e1"; Entry.name := BStr "First";
     Entry.pages := [scenario_page "Page of the first entry."];
     Entry.advancement := Some "adv1" |}.

Definition scenario_e2 : Entry.t :=
  {| Entry.id := "e2"; Entry.name := BStr "Second";
     Entry.pages := [scenario_page "Page of the second entry."];
     Entry.advancement := None |}.

Definition scenario_book : Book.t :=
  {| Book.name := BStr "Book"; Book.landing_text := BStr "Welcome";
     Book.categories :=
       [{| Category.id := "c1"; Category.name := BStr "Basics";
           Category.description := BStr "The basics.";
           Category.entries := [scenario_e1; scenario_e2] |}];
     Book.blacklist := ∅; Book.spoilers := ∅ |}.

Definition scenario_template : string :=
  "#DO_NOT_RENDER e2" +:+ Str.nl +:+ "#SPOILER adv1" +:+ Str.nl
  +:+ "#DUMP_BODY_HERE" +:+ Str.nl.

(** [sep.join(parts)] *)
Fixpoint join_with (sep : string) (parts : list string) : string :=
  match parts with
  | [] => ""
  | [p] => p
  | p :: ps => p +:+ sep +:+ join_with sep ps
  end.

(** The number of times the character [c] is in [s]. *)
Fixpoint count_char (c : ascii) (s : string) : nat :=
  match s with
  | EmptyString => 0
  | String d s' => (if Ascii.eqb d c then 1 else 0) + count_char c s'
  end.

(** The strings given to [Stream.text], in order. *)
Fixpoint texts (out : list Emit) : list string :=
  match out with
  | [] => []
  | EText txt :: out' => txt :: texts out'
  | _ :: out' => texts out'
  end.

(** A line break element. *)
Definition is_br (e : Emit) : bool :=
  match e with
  | ETag name kwargs => String.eqb name "br" && String.eqb kwargs ""
  | _ => false
  end.

(** The callout of a [crafting] page with the item names [names]. *)
Definition crafting_callout (names : list string) : list Emit :=
  [EOpen "blockquote" " class='crafting-info'";
   EText "Depicted in the book: The crafting recipe for the "]
  ++ match names with
     | [] => []
     | name :: rest => code name ++ flat_map (fun i => EText " and " :: code i) rest
     end
  ++ [EText "."; EClose "blockquote"].

(** The page types of the pattern family. *)
Definition pattern_types : list string :=
  ["hexcasting:pattern"; "hexcasting:manual_pattern_nosig";
   "hexcasting:manual_pattern"].

(** A line of the template that is no directive and not the marker. *)
Definition plain_line (line : string) : bool :=
  negb (Str.startswith "#DO_NOT_RENDER" line)
  && negb (Str.startswith "#SPOILER" line)
  && negb (String.eqb line ("#DUMP_BODY_HERE" +:+ Str.nl)).

(** Every style in the block is [base] or one that [get_format] takes
    with its value. *)
Fixpoint styles_ok (block : Block) : bool :=
  match block with
  | BStr _ => true
  | BTree style children =>
      (String.eqb (type style) "base"
       || match get_format (type style) (value style) with
          | Ok _ => true
          | Raise _ => false
          end)
      && forallb styles_ok children
  end.

(** A name that is a string. *)
Definition is_str (x : Block) : bool :=
  match x with
  | BStr _ => true
  | BTree _ _ => false
  end.

(** The link of an entry in the table of contents. *)
Definition toc_link (book : Book.t) (entry : Entry.t) : Emit :=
  EOpen "a"
    (tag_args
       [("href", VStr ("#" +:+ Entry.id entry));
        ("clazz", VStr (if entry_spoilered book entry then "spoilered" else ""))]).

(** The elements that [get_format] opens. *)
Definition style_elements : list string :=
  ["p"; "span"; "a"; "strong"; "i"; "s"].

(** The strings of a block, in order. *)
Fixpoint leaves (block : Block) : string :=
  match block with
  | BStr s => s
  | BTree _ children => Str.join (map leaves children)
  end.

(** The attributes of the [canvas] of a pattern, as written. *)
Definition canvas_args (pattern : Page.Pattern) : string :=
  " class='spell-viz' width='216' height='216' data-string='"
  +:+ Str.escape (Page.angle_sig pattern)
  +:+ "' data-start='" +:+ Str.escape (Str.lower (Page.direction pattern))
  +:+ "' data-per-world='"
  +:+ (if Page.is_per_world pattern then "True" else "False") +:+ "'".

(** ** Strings *)

Lemma contains_char_cons (c d : ascii) (s : string) :
  Str.contains (String c "") (String d s)
  = Ascii.eqb c d || Str.contains (String c "") s.
Proof.
  cbn [Str.contains String.prefix].
  destruct (ascii_dec c d) as [->|Hne].
  - rewrite Ascii.eqb_refl. now destruct s.
  - apply Ascii.eqb_neq in Hne. now rewrite Hne.
Qed.

Lemma contains_char_app (c : ascii) (a b : string) :
  Str.contains (String c "") (a +:+ b)
  = Str.contains (String c "") a || Str.contains (String c "") b.
Proof.
  induction a as [|d a IH].
  - reflexivity.
  - change (String d a +:+ b) with (String d (a +:+ b)).
    rewrite !contains_char_cons, IH. now rewrite orb_assoc.
Qed.

Lemma escape_char_no_quote (c : ascii) :
  Str.contains (String Str.squote "") (Str.escape_char c) = false
  /\ Str.contains (String Str.dquote "") (Str.escape_char c) = false.
Proof. destruct c as [[] [] [] [] [] [] [] []]; split; reflexivity. Qed.

Lemma escape_no_quote (s : string) :
  Str.contains (String Str.squote "") (Str.escape s) = false
  /\ Str.contains (String Str.dquote "") (Str.escape s) = false.
Proof.
  induction s as [|c s [IH1 IH2]]; [split; reflexivity|].
  cbn [Str.escape]. rewrite !contains_char_app, IH1, IH2.
  destruct (escape_char_no_quote c) as [-> ->]. split; reflexivity.
Qed.

Lemma repr_escape (s : string) :
  Str.repr (Str.escape s)
  = String Str.squote
      (Str.repr_body Str.squote (Str.escape s) +:+ String Str.squote "").
Proof.
  unfold Str.repr, Str.repr_quote.
  destruct (escape_no_quote s) as [-> _]. reflexivity.
Qed.

Lemma repr_char_plain (q c : ascii) :
  plain_char c = true -> c <> q -> Str.repr_char q c = String c "".
Proof.
  intros Hp Hq. unfold Str.repr_char.
  apply Ascii.eqb_neq in Hq. rewrite Hq. clear Hq. revert Hp.
  destruct c as [[] [] [] [] [] [] [] []]; vm_compute; congruence.
Qed.

Lemma repr_body_plain (q : ascii) (s : string) :
  plain s = true -> Str.contains (String q "") s = false ->
  Str.repr_body q s = s.
Proof.
  induction s as [|c s IH]; [reflexivity|].
  cbn [plain Str.repr_body]. rewrite contains_char_cons.
  intros [Hc Hs]%andb_true_iff [Hq Hn]%orb_false_iff.
  rewrite repr_char_plain, IH; auto.
  intros ->. now rewrite Ascii.eqb_refl in Hq.
Qed.

Lemma replace_char (old new : ascii) (s : string) :
  Str.replace old (String new "") s
  = map_chars (fun c => if Ascii.eqb c old then new else c) s.
Proof.
  induction s as [|c s IH]; [reflexivity|].
  cbn [Str.replace map_chars]. rewrite IH. now destruct (Ascii.eqb c old).
Qed.

Lemma at_for_hash_no_hash (s : string) :
  Str.contains "#" (at_for_hash s) = false.
Proof.
  induction s as [|c s IH]; [reflexivity|].
  unfold at_for_hash in *. cbn [map_chars]. rewrite contains_char_cons, IH.
  destruct (Ascii.eqb c "#") eqn:E; [reflexivity|].
  rewrite Ascii.eqb_sym, E. reflexivity.
Qed.

(** ** Markup emitter: attributes *)

Lemma tag_args_attr (kv : string * PyVal) :
  " " +:+ (if String.eqb kv.1 "clazz" then "class" else Str.replace "_" "-" kv.1)
  = " " +:+ attr_name kv.1.
Proof.
  unfold attr_name. destruct (String.eqb kv.1 "clazz"); [reflexivity|].
  now rewrite replace_char.
Qed.

Lemma append_cons (x : ascii) (a b : string) :
  String x a +:+ b = String x (a +:+ b).
Proof. reflexivity. Qed.

Lemma append_nil_r (a : string) : a +:+ "" = a.
Proof. induction a as [|x a IH]; [reflexivity|]. now rewrite append_cons, IH. Qed.

Lemma string_app_assoc (a b c : string) : (a +:+ b) +:+ c = a +:+ (b +:+ c).
Proof.
  induction a as [|x a IH]; [reflexivity|].
  rewrite !append_cons. now rewrite IH.
Qed.

Lemma join_zip_with_map {A} (f : A -> string -> string) (g : A -> string)
    (xs : list A) :
  Str.join (zip_with f xs (map g xs)) = Str.join (map (fun x => f x (g x)) xs).
Proof.
  induction xs as [|x xs IH]; [reflexivity|].
  cbn [map zip_with]. unfold Str.join in *. cbn [fold_right]. now rewrite IH.
Qed.

(** C10, as the code has it.  [tag_args] writes, for every attribute, a
    space, the name ([class] for [clazz], otherwise with a hyphen for
    each underscore), an equals sign and a text for the value.  For
    values whose string is ASCII that text is the [repr] of the escaped
    string: a single quote, the escaped text with every backslash doubled
    and every control character as a backslash escape, a single quote;
    so when the escaped text of every value is made of printable ASCII
    characters other than the backslash, it is the escaped text between
    single quotes. *)
Theorem tag_args_emitted (kwargs : list (string * PyVal)) :
  (exists values,
     length values = length kwargs
     /\ tag_args kwargs
        = Str.join
            (zip_with (fun kv v => " " +:+ attr_name kv.1 +:+ "=" +:+ v)
               kwargs values))
  /\ (forallb (fun kv => is_ascii (py_str kv.2)) kwargs = true ->
      tag_args kwargs
      = Str.join
          (map (fun kv =>
                  " " +:+ attr_name kv.1 +:+ "="
                  +:+ String Str.squote
                        (Str.repr_body Str.squote (Str.escape (py_str kv.2))
                         +:+ String Str.squote ""))
             kwargs)
      /\ (forallb (fun kv => plain (Str.escape (py_str kv.2))) kwargs = true ->
          tag_args kwargs = quoted_args "'" kwargs)).
Proof.
  split; [|intros _; split].
  - exists (map (fun kv => Str.repr (Str.escape (py_str kv.2))) kwargs).
    split; [apply length_map|].
    rewrite join_zip_with_map. unfold tag_args. f_equal. apply map_ext.
    intros kv. rewrite <- !string_app_assoc. now rewrite tag_args_attr.
  - unfold tag_args. f_equal. apply map_ext. intros kv.
    rewrite <- repr_escape.
    rewrite <- !string_app_assoc. now rewrite tag_args_attr.
  - intros Hp. unfold tag_args, quoted_args. f_equal.
    induction kwargs as [|kv kwargs IH]; [reflexivity|].
    cbn [forallb] in Hp. apply andb_true_iff in Hp as [Hkv Hp].
    cbn [map]. rewrite IH by exact Hp. f_equal.
    rewrite repr_escape, repr_body_plain;
      [|exact Hkv|apply escape_no_quote].
    rewrite <- !string_app_assoc. rewrite tag_args_attr.
    rewrite !string_app_assoc. reflexivity.
Qed.

Lemma tag_args_emitted_witness :
  tag_args [("clazz", VStr "a<b"); ("data_string", VInt 216)]
  = " class='a&lt;b' data-string='216'".
Proof.
  rewrite (proj2 (proj2 (tag_args_emitted
                           [("clazz", VStr "a<b"); ("data_string", VInt 216)])
                    eq_refl)).
  - reflexivity.
  - reflexivity.
Defined.

(** C10, as the claim words it, fails on a value with a backslash: the
    backslash is written twice, whichever quote is meant. *)
Lemma tag_args_backslash :
  let kwargs := [("title", VStr (String Str.backslash ""))] in
  tag_args kwargs = " title='" +:+ String Str.backslash (String Str.backslash "'")
  /\ tag_args kwargs <> quoted_args "'" kwargs
  /\ tag_args kwargs <> quoted_args (String Str.dquote "") kwargs.
Proof. repeat split; discriminate. Qed.

(** ** Style formatter: links *)

(** C7.  A link value without [://] gives the [href] made of a hash sign
    and the value with an at sign for each hash sign; a value with [://]
    is the [href] as it is. *)
Theorem link_href (value : string) :
  (Str.contains "://" value = false ->
   get_format "link" (VStr value)
   = Ok (Stream.pair_tag "a" [("href", VStr ("#" +:+ at_for_hash value))])
   /\ Str.contains "#" (at_for_hash value) = false)
  /\ (Str.contains "://" value = true ->
      get_format "link" (VStr value)
      = Ok (Stream.pair_tag "a" [("href", VStr value)])).
Proof.
  unfold get_format. cbn [String.eqb Ascii.eqb Bool.eqb].
  split; intros ->; cbn [negb].
  - split; [|apply at_for_hash_no_hash].
    unfold at_for_hash. now rewrite <- replace_char.
  - reflexivity.
Qed.

Lemma link_href_witness :
  get_format "link" (VStr "foo#bar") = Ok (PairTag "a" " href='#foo@bar'")
  /\ get_format "link" (VStr "https://example.com")
     = Ok (PairTag "a" " href='https://example.com'").
Proof.
  split.
  - rewrite (proj1 (proj1 (link_href "foo#bar") eq_refl)). reflexivity.
  - rewrite (proj2 (link_href "https://example.com") eq_refl). reflexivity.
Defined.

(** ** Computations *)

Lemma with_eq {A} (c : Ctx) (body : M A) :
  with_ c body = (enter c ++ body.1 ++ exit c, body.2).
Proof. now destruct body. Qed.

Lemma with_empty {A} (body : M A) : with_ Empty body = body.
Proof. destruct body as [out r]. cbn. now rewrite app_nil_r. Qed.

Lemma bind_ok {A B} (m : M A) (k : A -> M B) (a : A) :
  m.2 = Ok a -> bind m k = (m.1 ++ (k a).1, (k a).2).
Proof. destruct m as [out r]. cbn. intros ->. now destruct (k a). Qed.

Lemma bind_raise {A B} (m : M A) (k : A -> M B) (e : Exn) :
  m.2 = Raise e -> bind m k = (m.1, Raise e).
Proof. destruct m as [out r]. cbn. now intros ->. Qed.

Lemma bind_prefix {A B} (m : M A) (k : A -> M B) :
  exists rest, (bind m k).1 = m.1 ++ rest.
Proof.
  destruct m as [out [a|e]]; cbn.
  - destruct (k a) as [out' r]. now exists out'.
  - exists []. now rewrite app_nil_r.
Qed.

(** ** Spoilers *)

Lemma entry_spoilered_iff (book : Book.t) (entry : Entry.t) :
  entry_spoilered book entry = true
  <-> Entry.advancement entry ∈ Book.spoilers book.
Proof. unfold entry_spoilered. apply bool_decide_eq_true. Qed.

(** C3.  A category is spoilered exactly when each of its entries is; an
    entry is spoilered exactly when its advancement is in the spoiler
    set, so that an entry without advancement is not spoilered by a set
    that holds strings only; and [write_category] opens the spoiler
    [div] after the [section] exactly when the category is spoilered. *)
Theorem spoiler_propagation (book : Book.t) (category : Category.t) :
  (category_spoilered book category = true
   <-> Forall (fun entry => entry_spoilered book entry = true)
         (Category.entries category))
  /\ (forall entry,
        entry_spoilered book entry = true
        <-> Entry.advancement entry ∈ Book.spoilers book)
  /\ (None ∉ Book.spoilers book ->
      forall entry,
        Entry.advancement entry = None -> entry_spoilered book entry = false)
  /\ (exists rest,
        (write_category book category).1
        = EOpen "section" (tag_args [("id", VStr (Category.id category))])
          :: (if category_spoilered book category
              then [EOpen "div" " class='spoilered'"] else [])
          ++ EOpen "h2" " class='category-title page-header'" :: rest).
Proof.
  split; [|split; [|split]].
  - unfold category_spoilered. rewrite forallb_forall, Forall_forall.
    setoid_rewrite list_elem_of_In. reflexivity.
  - intros entry. apply entry_spoilered_iff.
  - intros Hnone entry Hadv. apply not_true_is_false.
    rewrite entry_spoilered_iff, Hadv. exact Hnone.
  - unfold write_category. rewrite with_eq. cbn [fst enter Stream.pair_tag].
    match goal with |- context [bind ?m ?k] =>
      destruct (bind_prefix m k) as [rest1 ->] end.
    rewrite with_eq. cbn [fst].
    match goal with |- context [bind ?m ?k] =>
      destruct (bind_prefix m k) as [rest2 ->] end.
    rewrite with_eq. cbn [fst enter Stream.pair_tag Stream.pair_tag_if truthy].
    destruct (category_spoilered book category); cbn [enter app];
      eexists; rewrite <- ?app_assoc; cbn [app]; reflexivity.
Qed.

Lemma spoiler_propagation_witness :
  let entry := {| Entry.id := "e2"; Entry.name := BStr "Second";
                  Entry.pages := []; Entry.advancement := None |} in
  let category := {| Category.id := "c1"; Category.name := BStr "Basics";
                     Category.description := BStr ""; Category.entries := [entry] |} in
  let book := {| Book.name := BStr "Book"; Book.landing_text := BStr "";
                 Book.categories := [category]; Book.blacklist := ∅;
                 Book.spoilers := {[ Some "adv1" ]} |} in
  entry_spoilered book entry = false.
Proof.
  intros entry category book.
  apply (proj1 (proj2 (proj2 (spoiler_propagation book category)))).
  - vm_compute. discriminate.
  - reflexivity.
Defined.

Lemma bind_lift_ok {A B} (a : A) (k : A -> M B) : bind (lift (Ok a)) k = k a.
Proof. unfold bind, lift. now destruct (k a). Qed.

(** ** Page renderer: the anchor *)

(** C9.  A page whose anchor is the empty string is written as the page
    without anchor is: with no [div] around it and no permalink, the
    anchor id being [None]. *)
Theorem empty_anchor_as_absent (pageid : string) (page : Page.t) :
  Page.anchor page = Some "" ->
  write_page pageid page = write_page pageid (Page.without_anchor page)
  /\ page_anchor_id pageid page = None
  /\ write_page pageid page
     = ((write_page_header None page ;;
         ty <- lift (getitem "type" (Page.type page)) ;;
         write_page_body None ty page) ;;
        Stream.tag "br" []).
Proof.
  intros Hanchor.
  assert (Hid : page_anchor_id pageid page = None).
  { unfold page_anchor_id. now rewrite Hanchor. }
  assert (Hid' : page_anchor_id pageid (Page.without_anchor page) = None)
    by reflexivity.
  unfold write_page. rewrite Hid, Hid'. cbn [opt_val Stream.pair_tag_if truthy].
  rewrite !with_empty. repeat split; reflexivity.
Qed.

Lemma empty_anchor_as_absent_witness :
  let page :=
    {| Page.type := Some "patchouli:text"; Page.anchor := Some "";
       Page.header := Some "Title"; Page.title := None;
       Page.text := Some (BStr "body"); Page.url := None;
       Page.link_text := None; Page.item_name := None; Page.images := None;
       Page.output_name := None; Page.name := None; Page.input := None;
       Page.output := None; Page.op := None |} in
  getvalue (write_page "e1" page).1 = "<h4>Title</h4>body<br />"
  /\ write_page "e1" page = write_page "e1" (Page.without_anchor page).
Proof.
  intros page. split.
  - reflexivity.
  - apply (empty_anchor_as_absent "e1" page). reflexivity.
Defined.

(** ** Template splicer: the blacklist directive *)

Lemma prefix_app (p s : string) :
  String.prefix p s = true -> exists rest, s = p +:+ rest.
Proof.
  revert s. induction p as [|c p IH]; intros s Hp.
  - now exists s.
  - destruct s as [|d s]; [discriminate|]. cbn [String.prefix] in Hp.
    destruct (ascii_dec c d) as [->|]; [|discriminate].
    destruct (IH s Hp) as [rest ->]. now exists rest.
Qed.

Lemma split_acc_nonempty (cur s : string) :
  cur <> "" -> exists word words, Str.split_acc cur s = word :: words.
Proof.
  revert cur. induction s as [|c s IH]; intros cur Hcur.
  - cbn. apply String.eqb_neq in Hcur. rewrite Hcur. eauto.
  - cbn [Str.split_acc]. destruct (Str.isspace c).
    + apply String.eqb_neq in Hcur. rewrite Hcur. cbn. eauto.
    + apply IH. now destruct cur.
Qed.

(** Every line that starts with the blacklist directive is read as one
    and then printed. *)
Lemma blacklist_line_echo (book : Book.t) (line : string) :
  Str.startswith "#DO_NOT_RENDER" line = true ->
  exists blacklist,
    splice_line book line
    = ([EPrint line], Ok (Book.update_blacklist book blacklist)).
Proof.
  intros Hline. unfold splice_line. rewrite Hline.
  apply prefix_app in Hline as [rest ->].
  destruct (split_acc_nonempty "#DO_NOT_RENDER" rest) as (word & words & Hsplit);
    [discriminate|].
  exists words. unfold rest_of_split, Str.split.
  change (Str.split_acc "" ("#DO_NOT_RENDER" +:+ rest))
    with (Str.split_acc "#DO_NOT_RENDER" rest).
  rewrite Hsplit. reflexivity.
Qed.

(** C1, at a template that is one blacklist directive: the line is read
    as a directive and also written to the output, since only the test
    for the spoiler directive is chained to the [else] that prints. *)
Theorem blacklist_line_printed (book : Book.t) :
  generate_docs book ("#DO_NOT_RENDER e2" +:+ Str.nl)
  = Ok ("#DO_NOT_RENDER e2" +:+ Str.nl)
  /\ generate_docs book ("#SPOILER adv1" +:+ Str.nl) = Ok "".
Proof. split; reflexivity. Qed.

(** ** Page renderer: several crafting recipes *)

Lemma multi_loop (rs : list string) :
  for_ (fun i =>
          Stream.text ", " ;;
          with_ (Stream.pair_tag "code" []) (Stream.text i)) rs
  = (flat_map (fun i => EText ", " :: code i) rs, Ok tt).
Proof.
  induction rs as [|i rs IH]; [reflexivity|].
  cbn [for_ flat_map] in *. rewrite IH. reflexivity.
Qed.

Lemma multi_callout_run (r : string) (rs : list string) :
  with_ (Stream.pair_tag "blockquote" [("clazz", VStr "crafting-info")])
    (Stream.text "Depicted in the book: Several crafting recipes, for the " ;;
     with_ (Stream.pair_tag "code" [])
       (r <- lift (first_of (r :: rs)) ;; Stream.text r) ;;
     for_ (fun i =>
             Stream.text ", " ;;
             with_ (Stream.pair_tag "code" []) (Stream.text i)) rs ;;
     Stream.text ".")
  = (multi_callout r rs, Ok tt).
Proof.
  rewrite multi_loop.
  cbv [with_ bind Stream.text emit lift Stream.pair_tag enter exit first_of].
  change (tag_args [("clazz", VStr "crafting-info")]) with " class='crafting-info'".
  change (tag_args []) with "".
  unfold multi_callout, code. cbn [app]. rewrite <- !app_assoc. reflexivity.
Qed.

Lemma text_content_app (a b : list Emit) :
  text_content (a ++ b) = text_content a +:+ text_content b.
Proof.
  induction a as [|e a IH]; [reflexivity|].
  destruct e; cbn [app text_content]; rewrite IH; try reflexivity.
  now rewrite string_app_assoc.
Qed.

Lemma text_content_multi (rs : list string) :
  text_content (flat_map (fun i => EText ", " :: code i) rs)
  = Str.join (map (fun i => ", " +:+ i) rs).
Proof.
  induction rs as [|i rs IH]; [reflexivity|].
  cbn [flat_map map Str.join fold_right]. rewrite text_content_app.
  fold (Str.join (map (fun i => ", " +:+ i) rs)). rewrite <- IH.
  cbn [code text_content]. now rewrite !string_app_assoc.
Qed.

(** C4, as the code has it.  The callout of a [crafting_multi] page with
    the recipes [r], [rs] comes after the page header and before the
    optional text; its text is [Depicted in the book: ] and then the
    phrase of the specification, each name in a [code] element. *)
Theorem crafting_multi_callout (pageid : string) (page : Page.t)
    (r : string) (rs : list string) :
  Page.type page = Some "hexcasting:crafting_multi" ->
  Page.item_name page = Some (Page.Names (r :: rs)) ->
  write_page pageid page
  = (let anchor_id := page_anchor_id pageid page in
     with_ (Stream.pair_tag_if (opt_val anchor_id) "div" [("id", opt_val anchor_id)])
       (write_page_header anchor_id page ;;
        (multi_callout r rs, Ok tt) ;;
        write_text_if page) ;;
     Stream.tag "br" [])
  /\ text_content (multi_callout r rs)
     = "Depicted in the book: " +:+ several_recipes r rs.
Proof.
  intros Hty Hin. split.
  - unfold write_page. rewrite Hty. cbn [getitem].
    rewrite bind_lift_ok. unfold write_page_body.
    cbn [String.eqb Ascii.eqb Bool.eqb orb andb].
    rewrite Hin. cbn [getitem]. rewrite bind_lift_ok.
    cbn [Page.elements tail]. rewrite multi_callout_run. reflexivity.
  - unfold multi_callout. rewrite !text_content_app, text_content_multi.
    cbn [code text_content]. rewrite !append_nil_r. reflexivity.
Qed.

Lemma crafting_multi_callout_witness :
  let page :=
    {| Page.type := Some "hexcasting:crafting_multi"; Page.anchor := None;
       Page.header := None; Page.title := None; Page.text := None;
       Page.url := None; Page.link_text := None;
       Page.item_name := Some (Page.Names ["Focus"; "Spellbook"; "Trinket"]);
       Page.images := None; Page.output_name := None; Page.name := None;
       Page.input := None; Page.output := None; Page.op := None |} in
  text_content (write_page "e1" page).1
  = "Depicted in the book: Several crafting recipes, for the Focus, Spellbook, Trinket.".
Proof.
  intros page.
  rewrite (proj1 (crafting_multi_callout "e1" page "Focus" ["Spellbook"; "Trinket"]
                    eq_refl eq_refl)).
  reflexivity.
Defined.

(** C4, as the claim words it, fails: the text of the callout does not
    start with the phrase [Several crafting recipes]. *)
Lemma crafting_multi_prefix :
  let page :=
    {| Page.type := Some "hexcasting:crafting_multi"; Page.anchor := None;
       Page.header := None; Page.title := None; Page.text := None;
       Page.url := None; Page.link_text := None;
       Page.item_name := Some (Page.Names ["Focus"; "Spellbook"]);
       Page.images := None; Page.output_name := None; Page.name := None;
       Page.input := None; Page.output := None; Page.op := None |} in
  write_page "e1" page
  = (multi_callout "Focus" ["Spellbook"] ++ [ETag "br" ""], Ok tt)
  /\ text_content (multi_callout "Focus" ["Spellbook"])
     = "Depicted in the book: Several crafting recipes, for the Focus, Spellbook."
  /\ text_content (multi_callout "Focus" ["Spellbook"])
     <> several_recipes "Focus" ["Spellbook"].
Proof. repeat split. discriminate. Qed.

(** ** Page renderer: pages of an unknown type *)

Lemma with_snd {A} (c : Ctx) (body : M A) : (with_ c body).2 = body.2.
Proof. now destruct body. Qed.

Lemma permalink_ok (link : string) : (permalink link).2 = Ok tt.
Proof. reflexivity. Qed.

Lemma permalink_if_ok (anchor_id : option string) :
  (permalink_if anchor_id).2 = Ok tt.
Proof.
  destruct anchor_id as [a|]; [|reflexivity].
  cbn [permalink_if]. now destruct (truthy (VStr a)).
Qed.

Lemma write_page_header_ok (anchor_id : option string) (page : Page.t) :
  (write_page_header anchor_id page).2 = Ok tt.
Proof.
  unfold write_page_header.
  destruct (Page.header page), (Page.title page);
    try reflexivity; rewrite with_snd;
    (erewrite bind_ok by reflexivity); apply permalink_if_ok.
Qed.

Lemma unrecognized_neq (ty : string) :
  ty ∉ recognized ->
  Forall (fun known => String.eqb ty known = false) recognized.
Proof.
  intros Hty. apply Forall_forall. intros known Hin.
  apply String.eqb_neq. intros ->. apply Hty. now apply list_elem_of_In.
Qed.

Lemma write_page_body_unrecognized (anchor_id : option string) (ty : string)
    (page : Page.t) :
  ty ∉ recognized ->
  write_page_body anchor_id ty page
  = ((missing_processor ty, Ok tt) ;; write_text_if page).
Proof.
  intros Hty. apply unrecognized_neq in Hty. unfold recognized in Hty.
  repeat match goal with
         | H : Forall _ (_ :: _) |- _ =>
             apply Forall_cons_iff in H; destruct H as [? H]
         end.
  unfold write_page_body.
  repeat match goal with
         | H : String.eqb ty _ = false |- _ => rewrite H; clear H
         end.
  reflexivity.
Qed.

(** C6, as the code has it.  A page of a type without processor is
    written as its header, the marker paragraph naming the type and the
    optional text of the page.  [write_page] returns when writing that
    text returns, and then the loop over the pages goes on with the pages
    that follow. *)
Theorem unknown_kind_fallback (pageid : string) (page : Page.t) (ty : string) :
  Page.type page = Some ty ->
  ty ∉ recognized ->
  write_page pageid page
  = (let anchor_id := page_anchor_id pageid page in
     with_ (Stream.pair_tag_if (opt_val anchor_id) "div" [("id", opt_val anchor_id)])
       (write_page_header anchor_id page ;;
        (missing_processor ty, Ok tt) ;;
        write_text_if page) ;;
     Stream.tag "br" [])
  /\ ((write_text_if page).2 = Ok tt ->
      (write_page pageid page).2 = Ok tt
      /\ forall rest,
           for_ (write_page pageid) (page :: rest)
           = ((write_page pageid page).1 ++ (for_ (write_page pageid) rest).1,
              (for_ (write_page pageid) rest).2)).
Proof.
  intros Hpage Hty.
  assert (Heq : write_page pageid page
    = (let anchor_id := page_anchor_id pageid page in
       with_ (Stream.pair_tag_if (opt_val anchor_id) "div" [("id", opt_val anchor_id)])
         (write_page_header anchor_id page ;;
          (missing_processor ty, Ok tt) ;;
          write_text_if page) ;;
       Stream.tag "br" [])).
  { unfold write_page. rewrite Hpage. cbn [getitem]. rewrite bind_lift_ok.
    now rewrite write_page_body_unrecognized. }
  split; [exact Heq|]. intros Htext.
  assert (Hok : (write_page pageid page).2 = Ok tt).
  { rewrite Heq. cbv zeta.
    erewrite bind_ok; [reflexivity|]. rewrite with_snd.
    erewrite bind_ok by apply write_page_header_ok.
    erewrite bind_ok by reflexivity. exact Htext. }
  split; [exact Hok|]. intros rest.
  cbn [for_]. now erewrite bind_ok by exact Hok.
Qed.

Lemma unknown_kind_fallback_witness :
  let page := page_of_type "totally:unknown" in
  getvalue (for_ (write_page "e1") [page; page_of_type "patchouli:empty"]).1
  = "<p class='todo-note'>TODO: Missing processor for type: totally:unknown</p><br /><br />".
Proof.
  intros page.
  assert (Hty : "totally:unknown" ∉ recognized).
  { unfold recognized. rewrite !not_elem_of_cons, elem_of_nil.
    repeat split; discriminate || tauto. }
  rewrite (proj2 (proj2 (unknown_kind_fallback "e1" page "totally:unknown"
                           eq_refl Hty) eq_refl)).
  reflexivity.
Defined.

(** C6, as the claim words it, fails on a page of an unknown type whose
    text has a style that [get_format] does not know: the marker is
    written and then [write_page] raises. *)
Lemma unknown_kind_raises :
  let page :=
    {| Page.type := Some "totally:unknown"; Page.anchor := None;
       Page.header := None; Page.title := None;
       Page.text := Some (BTree {| type := "blink"; value := VNone |} [BStr "x"]);
       Page.url := None; Page.link_text := None; Page.item_name := None;
       Page.images := None; Page.output_name := None; Page.name := None;
       Page.input := None; Page.output := None; Page.op := None |} in
  write_page "e1" page
  = (missing_processor "totally:unknown",
     Raise (ValueError "Unknown format type: blink")).
Proof. reflexivity. Qed.

(** ** Fatal errors: unknown style, unknown namespace *)

Lemma get_format_unknown (ty : string) (value : PyVal) :
  ty ∉ style_tags ->
  get_format ty value = Raise (ValueError ("Unknown format type: " +:+ ty)).
Proof.
  intros Hty.
  assert (Hneq : Forall (fun known => String.eqb ty known = false) style_tags).
  { apply Forall_forall. intros known Hin.
    apply String.eqb_neq. intros ->. apply Hty. now apply list_elem_of_In. }
  unfold style_tags in Hneq.
  repeat match goal with
         | H : Forall _ (_ :: _) |- _ =>
             apply Forall_cons_iff in H; destruct H as [? H]
         end.
  unfold get_format.
  repeat match goal with
         | H : String.eqb ty _ = false |- _ => rewrite H; clear H
         end.
  reflexivity.
Qed.

Lemma split_on_acc_app (sep : ascii) (cur a b : string) :
  Str.contains (String sep "") a = false ->
  Str.split_on_acc sep cur (a +:+ b) = Str.split_on_acc sep (cur +:+ a) b.
Proof.
  revert cur. induction a as [|c a IH]; intros cur Ha.
  - now rewrite append_nil_r.
  - rewrite contains_char_cons in Ha. apply orb_false_iff in Ha as [Hc Ha].
    rewrite append_cons. cbn [Str.split_on_acc].
    rewrite Ascii.eqb_sym, Hc, IH by exact Ha.
    now rewrite string_app_assoc.
Qed.

Lemma split_on_pair (sep : ascii) (a b : string) :
  Str.contains (String sep "") a = false ->
  Str.contains (String sep "") b = false ->
  Str.split_on sep (a +:+ String sep b) = [a; b].
Proof.
  intros Ha Hb. unfold Str.split_on.
  rewrite split_on_acc_app by exact Ha.
  cbn [Str.split_on_acc]. rewrite Ascii.eqb_refl.
  replace b with (b +:+ "") at 1 by apply append_nil_r.
  rewrite split_on_acc_app by exact Hb. reflexivity.
Qed.

Lemma write_image_unknown (modid coords : string) :
  Str.contains ":" modid = false ->
  Str.contains ":" coords = false ->
  repo_names !! modid = None ->
  write_image (modid +:+ ":" +:+ coords) = ([], Raise (KeyError modid)).
Proof.
  intros Hm Hc Hrepo. unfold write_image.
  change (modid +:+ ":" +:+ coords) with (modid +:+ String ":" coords).
  rewrite split_on_pair by assumption. now rewrite Hrepo.
Qed.

Lemma for_raise {A} (body : A -> M unit) (pre : list A) (x : A)
    (post : list A) (e : Exn) :
  Forall (fun y => (body y).2 = Ok tt) pre ->
  (body x).2 = Raise e ->
  (for_ body (pre ++ x :: post)).2 = Raise e.
Proof.
  intros Hpre Hx. induction Hpre as [|y pre Hy _ IH]; cbn [app for_].
  - now erewrite bind_raise by exact Hx.
  - erewrite bind_ok by exact Hy. exact IH.
Qed.

Lemma bind_raise_snd {A B} (m : M A) (k : A -> M B) (e : Exn) :
  m.2 = Raise e -> (bind m k).2 = Raise e.
Proof. intros H. now erewrite bind_raise by exact H. Qed.

(** C5.  A style type that is not one of the ten makes [get_format]
    raise the [ValueError] that names it, and [write_block] on a tree of
    that style (the unstyled [base] apart) raises it with nothing
    written.  On an image page, the first image of a namespace that the
    table lacks makes [write_page] raise the [KeyError] of that
    namespace, no [img] being written for it.  An exception of
    [write_book] leaves [generate_docs] without output. *)
Theorem fatal_errors :
  (forall ty value, ty ∉ style_tags ->
     get_format ty value = Raise (ValueError ("Unknown format type: " +:+ ty)))
  /\ (forall ty val children, ty ∉ style_tags -> ty <> "base" ->
        write_block (BTree {| type := ty; value := val |} children)
        = ([], Raise (ValueError ("Unknown format type: " +:+ ty))))
  /\ (forall pageid page pre modid coords post,
        Page.type page = Some "patchouli:image" ->
        Page.images page = Some (pre ++ (modid +:+ ":" +:+ coords) :: post) ->
        Forall (fun img => (write_image img).2 = Ok tt) pre ->
        Str.contains ":" modid = false ->
        Str.contains ":" coords = false ->
        repo_names !! modid = None ->
        write_image (modid +:+ ":" +:+ coords) = ([], Raise (KeyError modid))
        /\ (write_page pageid page).2 = Raise (KeyError modid))
  /\ (forall book e,
        (write_book book).2 = Raise e ->
        generate_docs book ("#DUMP_BODY_HERE" +:+ Str.nl) = Raise e).
Proof.
  split; [|split; [|split]].
  - apply get_format_unknown.
  - intros ty val children Hty Hbase.
    cbn [write_block type value].
    apply String.eqb_neq in Hbase. rewrite Hbase.
    now rewrite get_format_unknown by exact Hty.
  - intros pageid page pre modid coords post Hty Himg Hpre Hm Hc Hrepo.
    split; [now apply write_image_unknown|].
    unfold write_page. rewrite Hty. cbn [getitem].
    apply bind_raise_snd. rewrite with_snd.
    erewrite bind_ok by apply write_page_header_ok. cbn [snd].
    rewrite bind_lift_ok. unfold write_page_body.
    cbn [String.eqb Ascii.eqb Bool.eqb orb andb].
    apply bind_raise_snd. rewrite with_snd.
    rewrite Himg. cbn [getitem]. rewrite bind_lift_ok.
    apply for_raise; [exact Hpre|].
    now rewrite write_image_unknown.
  - intros book e Hraise. unfold generate_docs.
    change (Str.splitlines ("#DUMP_BODY_HERE" +:+ Str.nl))
      with ["#DUMP_BODY_HERE" +:+ Str.nl].
    cbn [splice]. unfold splice_line.
    change (Str.startswith "#DO_NOT_RENDER" ("#DUMP_BODY_HERE" +:+ Str.nl)) with false.
    change (Str.startswith "#SPOILER" ("#DUMP_BODY_HERE" +:+ Str.nl)) with false.
    rewrite String.eqb_refl.
    change (bind (ret book) ?k) with (bind (lift (Ok book)) k).
    rewrite bind_lift_ok.
    erewrite (bind_raise (bind (write_book book) _)).
    + reflexivity.
    + now apply bind_raise_snd.
Qed.

Lemma fatal_errors_witness :
  let page :=
    {| Page.type := Some "patchouli:image"; Page.anchor := None;
       Page.header := None; Page.title := None; Page.text := None;
       Page.url := None; Page.link_text := None; Page.item_name := None;
       Page.images := Some ["hexcasting:textures/a.png"; "othermod:textures/b.png"];
       Page.output_name := None; Page.name := None; Page.input := None;
       Page.output := None; Page.op := None |} in
  write_block (BTree {| type := "blink"; value := VNone |} [BStr "x"])
  = ([], Raise (ValueError "Unknown format type: blink"))
  /\ (write_page "e1" page).2 = Raise (KeyError "othermod").
Proof.
  intros page. split.
  - apply (proj1 (proj2 fatal_errors)).
    + unfold style_tags. rewrite !not_elem_of_cons, elem_of_nil.
      repeat split; discriminate || tauto.
    + discriminate.
  - apply (proj1 (proj2 (proj2 fatal_errors)) "e1" page
             ["hexcasting:textures/a.png"] "othermod" "textures/b.png" []).
    + reflexivity.
    + reflexivity.
    + repeat constructor.
    + reflexivity.
    + reflexivity.
    + reflexivity.
Defined.

(** ** Format tree walker: nesting *)

Lemma nesting_app (stack : list string) (a b : list Emit) :
  nesting stack (a ++ b)
  = match nesting stack a with
    | Some stack' => nesting stack' b
    | None => None
    end.
Proof.
  revert stack. induction a as [|e a IH]; intros stack; [reflexivity|].
  destruct e; cbn [app nesting]; try apply IH.
  destruct stack as [|top stack]; [reflexivity|].
  destruct (String.eqb name top); [apply IH|reflexivity].
Qed.

Lemma count_app (p : Emit -> bool) (a b : list Emit) :
  count p (a ++ b) = count p a + count p b.
Proof. unfold count. now rewrite filter_app, length_app. Qed.

Lemma tidy_nil : tidy [].
Proof. split; [intros stack|]; reflexivity. Qed.

Lemma tidy_app (a b : list Emit) : tidy a -> tidy b -> tidy (a ++ b).
Proof.
  intros [Ha Hca] [Hb Hcb]. split.
  - intros stack. now rewrite nesting_app, Ha, Hb.
  - rewrite !count_app. now rewrite Hca, Hcb.
Qed.

Lemma tidy_tag (name kwargs : string) : tidy [ETag name kwargs].
Proof. split; [intros stack|]; reflexivity. Qed.

Lemma tidy_text (txt : string) : tidy [EText txt].
Proof. split; [intros stack|]; reflexivity. Qed.

Lemma tidy_pair (c : Ctx) (out : list Emit) :
  tidy out -> tidy (enter c ++ out ++ exit c).
Proof.
  intros [Hn Hc]. destruct c as [name kwargs|]; cbn [enter exit app].
  - split.
    + intros stack. cbn [nesting]. rewrite nesting_app, Hn.
      cbn [nesting]. now rewrite String.eqb_refl.
    + change (EOpen name kwargs :: out ++ [EClose name])
        with ([EOpen name kwargs] ++ out ++ [EClose name]).
      rewrite !count_app, Hc.
      change (count is_open [EOpen name kwargs]) with 1.
      change (count is_close [EOpen name kwargs]) with 0.
      change (count is_open [EClose name]) with 0.
      change (count is_close [EClose name]) with 1.
      lia.
  - rewrite app_nil_r. now split.
Qed.

Lemma tidy_bind {A B} (m : M A) (k : A -> M B) :
  tidy m.1 -> (forall a, tidy (k a).1) -> tidy (bind m k).1.
Proof.
  intros Hm Hk. destruct m as [out [a|e]]; cbn [bind fst] in *.
  - specialize (Hk a). destruct (k a) as [out' r]. now apply tidy_app.
  - exact Hm.
Qed.

Lemma tidy_with {A} (c : Ctx) (body : M A) :
  tidy body.1 -> tidy (with_ c body).1.
Proof. intros H. rewrite with_eq. now apply tidy_pair. Qed.

Lemma tidy_for {A} (body : A -> M unit) (xs : list A) :
  Forall (fun x => tidy (body x).1) xs -> tidy (for_ body xs).1.
Proof.
  induction 1 as [|x xs Hx _ IH]; cbn [for_].
  - apply tidy_nil.
  - apply tidy_bind; [exact Hx|]. intros _. exact IH.
Qed.

Lemma tidy_write_lines (first : bool) (lines : list string) :
  tidy (write_lines first lines).1.
Proof.
  revert first. induction lines as [|line lines IH]; intros first.
  - apply tidy_nil.
  - cbn [write_lines]. apply tidy_bind.
    + destruct first; [apply tidy_tag|apply tidy_nil].
    + intros _. apply tidy_bind; [apply tidy_text|]. intros _. apply IH.
Qed.

(** Induction on a block with the property at hand for its children. *)
Lemma Block_children_ind (P : Block -> Prop) :
  (forall s, P (BStr s)) ->
  (forall style children, Forall P children -> P (BTree style children)) ->
  forall block, P block.
Proof.
  intros Hstr Htree. fix IH 1. intros [s|style children].
  - apply Hstr.
  - apply Htree. revert children. fix IHc 1. intros [|child children].
    + constructor.
    + constructor; [apply IH|apply IHc].
Qed.

Lemma tidy_write_block (block : Block) : tidy (write_block block).1.
Proof.
  induction block as [s|style children IH] using Block_children_ind.
  - apply tidy_write_lines.
  - cbn [write_block]. apply tidy_for in IH.
    destruct (String.eqb (type style) "base"); [exact IH|].
    destruct (get_format (type style) (value style)) as [tag|e].
    + rewrite bind_lift_ok. now apply tidy_with.
    + apply tidy_nil.
Qed.

(** C8.  Whatever [write_block] has written for a block, as it returns
    or as it raises, has as many opening as closing tags and is well
    nested; and a [with] over a [PairTag] writes the closing tag after
    what the body wrote, whether the body returned or raised. *)
Theorem balanced_nesting (block : Block) :
  well_nested (write_block block).1
  /\ count is_open (write_block block).1 = count is_close (write_block block).1
  /\ (forall name kwargs (body : M unit),
        with_ (PairTag name kwargs) body
        = (EOpen name kwargs :: body.1 ++ [EClose name], body.2)).
Proof.
  destruct (tidy_write_block block) as [Hn Hc].
  split; [apply Hn|]. split; [exact Hc|].
  intros name kwargs body. now rewrite with_eq.
Qed.

(** The bold tag is closed after the child that raised. *)
Example balanced_nesting_raise :
  write_block
    (BTree {| type := "bold"; value := VNone |}
       [BStr "a"; BTree {| type := "blink"; value := VNone |} []; BStr "b"])
  = ([EOpen "strong" ""; EText "a"; EClose "strong"],
     Raise (ValueError "Unknown format type: blink")).
Proof. reflexivity. Qed.

(** ** The end-to-end scenario *)

Lemma blacklist_filter (book : Book.t) (entries : list Entry.t) :
  for_ (fun entry =>
          when (negb (bool_decide (Entry.id entry ∈ Book.blacklist book)))
            (write_entry book entry))
    entries
  = for_ (write_entry book)
      (List.filter
         (fun entry => negb (bool_decide (Entry.id entry ∈ Book.blacklist book)))
         entries).
Proof.
  induction entries as [|entry entries IH]; [reflexivity|].
  cbn [for_ List.filter].
  destruct (negb (bool_decide (Entry.id entry ∈ Book.blacklist book))).
  - cbn [when for_]. now rewrite IH.
  - cbn [when]. rewrite <- IH. apply (bind_lift_ok tt).
Qed.

(** C2, as the code has it.  [write_category] writes the entries that
    are not on the blacklist, and [write_entry] puts a spoilered entry
    inside a spoiler [div].  In the scenario the body has the entry [e1]
    inside a spoiler [div] and no element for the entry [e2], whose
    page is not written; the table of contents lists both entries, [e1]
    marked as spoilered. *)
Theorem end_to_end :
  (forall book category,
     exists head : M unit,
       write_category book category
       = with_ (Stream.pair_tag "section" [("id", VStr (Category.id category))])
           (head ;;
            for_ (write_entry book)
              (List.filter
                 (fun entry =>
                    negb (bool_decide (Entry.id entry ∈ Book.blacklist book)))
                 (Category.entries category))))
  /\ (forall book entry,
        entry_spoilered book entry = true ->
        exists body : M unit,
          write_entry book entry
          = with_ (Stream.pair_tag "div" [("id", VStr (Entry.id entry))])
              (with_ (PairTag "div" " class='spoilered'") body))
  /\ match generate_docs scenario_book scenario_template with
     | Ok output =>
         Str.contains
           "<div id='e1'><div class='spoilered'><h3 class='entry-title page-header'>First"
           output = true
         /\ Str.contains "Page of the first entry." output = true
         /\ Str.contains "id='e2'" output = false
         /\ Str.contains "Page of the second entry." output = false
         /\ Str.contains
              "<ul><li><a href='#e1' class='spoilered'>First</a></li><li><a href='#e2' class=''>Second</a></li></ul>"
              output = true
     | Raise _ => False
     end.
Proof.
  split; [|split].
  - intros book category. eexists. unfold write_category.
    now rewrite blacklist_filter.
  - intros book entry Hsp. eexists. unfold write_entry.
    rewrite Hsp. reflexivity.
  - vm_compute. repeat split.
Qed.

Lemma end_to_end_witness :
  let book := Book.update_spoilers scenario_book ["adv1"] in
  exists body : M unit,
    write_entry book scenario_e1
    = with_ (Stream.pair_tag "div" [("id", VStr "e1")])
        (with_ (PairTag "div" " class='spoilered'") body).
Proof.
  intros book.
  apply (proj1 (proj2 end_to_end) book scenario_e1). reflexivity.
Defined.

(** C2, as the claim words it, fails: the table of contents of the
    output has the link to [e2]. *)
Lemma end_to_end_toc_lists_e2 :
  match generate_docs scenario_book scenario_template with
  | Ok output =>
      Str.contains "<li><a href='#e2' class=''>Second</a></li>" output = true
  | Raise _ => False
  end.
Proof. vm_compute. reflexivity. Qed.

(** ** Nesting of the whole book *)

Ltac tidy_step :=
  match goal with
  | |- tidy (bind _ _).1 => apply tidy_bind; [|intros ?]
  | |- tidy (with_ _ _).1 => apply tidy_with
  | |- tidy (for_ _ _).1 => apply tidy_for, Forall_forall; intros ? _
  | |- tidy (write_block _).1 => apply tidy_write_block
  | |- tidy (Stream.text _).1 => apply tidy_text
  | |- tidy (Stream.tag _ _).1 => apply tidy_tag
  | |- tidy (Stream.empty_pair_tag _ _).1 => apply tidy_with, tidy_nil
  | |- tidy (ret _).1 => apply tidy_nil
  | |- tidy (raise _).1 => apply tidy_nil
  | |- tidy (lift _).1 => apply tidy_nil
  | |- tidy (when ?c _).1 => destruct c; cbn [when]
  | |- tidy (match ?x with _ => _ end).1 => destruct x
  end.

Ltac tidy_all := repeat tidy_step.

Lemma tidy_permalink (link : string) : tidy (permalink link).1.
Proof. unfold permalink. tidy_all. Qed.

Lemma tidy_anchor_toc : tidy anchor_toc.1.
Proof. unfold anchor_toc. tidy_all. Qed.

Lemma tidy_permalink_if (anchor_id : option string) :
  tidy (permalink_if anchor_id).1.
Proof. unfold permalink_if. tidy_all. apply tidy_permalink. Qed.

Lemma tidy_write_names (first : bool) (names : list string) :
  tidy (write_names first names).1.
Proof.
  revert first. induction names as [|name names IH]; intros first;
    cbn [write_names]; tidy_all. apply IH.
Qed.

Lemma tidy_write_image (img : string) : tidy (write_image img).1.
Proof. unfold write_image. tidy_all. Qed.

Lemma tidy_write_pattern (pattern : Page.Pattern) :
  tidy (write_pattern pattern).1.
Proof. unfold write_pattern. tidy_all. Qed.

Lemma tidy_write_page_body (anchor_id : option string) (ty : string)
    (page : Page.t) :
  tidy (write_page_body anchor_id ty page).1.
Proof.
  unfold write_page_body, write_text, write_text_if.
  tidy_all;
    auto using tidy_permalink_if, tidy_write_names, tidy_write_image,
      tidy_write_pattern.
Qed.

Lemma tidy_write_page (pageid : string) (page : Page.t) :
  tidy (write_page pageid page).1.
Proof.
  unfold write_page, write_page_header. tidy_all;
    auto using tidy_permalink_if, tidy_write_page_body.
Qed.

Lemma tidy_write_entry (book : Book.t) (entry : Entry.t) :
  tidy (write_entry book entry).1.
Proof.
  unfold write_entry. tidy_all;
    auto using tidy_anchor_toc, tidy_permalink, tidy_write_page.
Qed.

Lemma tidy_write_category (book : Book.t) (category : Category.t) :
  tidy (write_category book category).1.
Proof.
  unfold write_category. tidy_all;
    auto using tidy_anchor_toc, tidy_permalink, tidy_write_entry.
Qed.

Lemma tidy_write_toc (book : Book.t) : tidy (write_toc book).1.
Proof. unfold write_toc, text_of. tidy_all; auto using tidy_permalink. Qed.

Lemma tidy_write_book (book : Book.t) : tidy (write_book book).1.
Proof.
  unfold write_book. tidy_all; auto using tidy_write_toc, tidy_write_category.
Qed.

(** X1.  Whatever [write_page] has written for a page of any type, as
    it returns or as it raises, is well nested and has as many opening
    as closing tags. *)
Theorem page_nesting (pageid : string) (page : Page.t) :
  well_nested (write_page pageid page).1
  /\ count is_open (write_page pageid page).1
     = count is_close (write_page pageid page).1.
Proof. destruct (tidy_write_page pageid page) as [Hn Hc]. split; [apply Hn|exact Hc]. Qed.

(** X2.  Whatever [write_book] has written (header, table of contents,
    categories and their entries), as it returns or as it raises, is
    well nested and has as many opening as closing tags. *)
Theorem book_nesting (book : Book.t) :
  well_nested (write_book book).1
  /\ count is_open (write_book book).1 = count is_close (write_book book).1.
Proof. destruct (tidy_write_book book) as [Hn Hc]. split; [apply Hn|exact Hc]. Qed.

(** ** Strings in the format tree *)

Lemma append_nil_l (a : string) : "" +:+ a = a.
Proof. reflexivity. Qed.

Lemma split_on_acc_cons (sep : ascii) (cur s : string) :
  exists last rest,
    Str.split_on_acc sep cur s = (cur +:+ last) :: rest
    /\ (forall cur', Str.split_on_acc sep cur' s = (cur' +:+ last) :: rest).
Proof.
  revert cur. induction s as [|c s IH]; intros cur.
  - exists "", []. split; [|intros cur']; cbn; now rewrite append_nil_r.
  - cbn [Str.split_on_acc]. destruct (Ascii.eqb c sep).
    + exists "", (Str.split_on_acc sep "" s).
      split; [|intros cur']; now rewrite append_nil_r.
    + destruct (IH (cur +:+ String c "")) as (last & rest & _ & Hall).
      exists (String c last), rest. split; [|intros cur'];
        rewrite Hall, string_app_assoc; reflexivity.
Qed.

Lemma join_with_cons (sep p q : string) (ps : list string) :
  join_with sep (p :: q :: ps) = p +:+ sep +:+ join_with sep (q :: ps).
Proof. reflexivity. Qed.

Lemma join_split_on_acc (sep : ascii) (cur s : string) :
  join_with (String sep "") (Str.split_on_acc sep cur s) = cur +:+ s.
Proof.
  revert cur. induction s as [|c s IH]; intros cur;
    [cbn; now rewrite append_nil_r|].
  cbn [Str.split_on_acc]. destruct (Ascii.eqb c sep) eqn:Hc.
  - apply Ascii.eqb_eq in Hc as ->.
    destruct (split_on_acc_cons sep "" s) as (last & rest & Hs & _).
    specialize (IH ""). rewrite Hs in IH |- *.
    rewrite join_with_cons, IH. reflexivity.
  - rewrite IH, string_app_assoc. reflexivity.
Qed.

Lemma length_split_on_acc (sep : ascii) (cur s : string) :
  length (Str.split_on_acc sep cur s) = S (count_char sep s).
Proof.
  revert cur. induction s as [|c s IH]; intros cur; [reflexivity|].
  cbn [Str.split_on_acc count_char].
  destruct (Ascii.eqb c sep); cbn [length]; now rewrite IH.
Qed.

Lemma count_cons (p : Emit -> bool) (e : Emit) (out : list Emit) :
  count p (e :: out) = (if p e then 1 else 0) + count p out.
Proof.
  unfold count. rewrite filter_cons.
  destruct (p e); case_decide; try congruence; reflexivity.
Qed.

Lemma write_lines_run (first : bool) (lines : list string) :
  (write_lines first lines).2 = Ok tt
  /\ texts (write_lines first lines).1 = lines
  /\ count is_br (write_lines first lines).1
     = match lines with
       | [] => 0
       | _ :: rest => (if first then 1 else 0) + length rest
       end.
Proof.
  revert first. induction lines as [|line lines IH]; intros first.
  - repeat split.
  - destruct (IH true) as (Hok & Htexts & Hbr).
    cbn [write_lines].
    destruct (write_lines true lines) as [out r]. cbn [fst snd] in *. subst r.
    destruct first;
      cbv [bind when Stream.tag Stream.text emit ret]; cbn [app fst snd texts];
      rewrite ?count_cons, Hbr, Htexts; cbn [is_br];
      (split; [reflexivity|]); (split; [reflexivity|]);
      destruct lines; reflexivity.
Qed.

(** X3.  [write_block] on a string returns; the strings it gives to
    [Stream.text], joined by line feeds, are the string; and it writes one
    line break element for each line feed of the string. *)
Theorem string_block (s : string) :
  (write_block (BStr s)).2 = Ok tt
  /\ join_with Str.nl (texts (write_block (BStr s)).1) = s
  /\ count is_br (write_block (BStr s)).1 = count_char "010" s.
Proof.
  cbn [write_block]. unfold Str.split_on.
  destruct (write_lines_run false (Str.split_on_acc "010" "" s))
    as (Hok & Htexts & Hbr).
  split; [exact Hok|]. split.
  - rewrite Htexts. apply (join_split_on_acc "010" "" s).
  - rewrite Hbr.
    pose proof (length_split_on_acc "010" "" s) as Hlen.
    destruct (Str.split_on_acc "010" "" s); cbn [length] in *; lia.
Qed.

(** ** Escaping *)

Lemma escape_char_no_angle (c : ascii) :
  Str.contains "<" (Str.escape_char c) = false
  /\ Str.contains ">" (Str.escape_char c) = false.
Proof. destruct c as [[] [] [] [] [] [] [] []]; split; reflexivity. Qed.

Lemma escape_no_angle (s : string) :
  Str.contains "<" (Str.escape s) = false
  /\ Str.contains ">" (Str.escape s) = false.
Proof.
  induction s as [|c s [IH1 IH2]]; [split; reflexivity|].
  cbn [Str.escape]. rewrite !contains_char_app, IH1, IH2.
  destruct (escape_char_no_angle c) as [-> ->]. split; reflexivity.
Qed.

Lemma escape_char_cases (c : ascii) :
  (c = "&"%char /\ Str.escape_char c = "&amp;")
  \/ (c = "<"%char /\ Str.escape_char c = "&lt;")
  \/ (c = ">"%char /\ Str.escape_char c = "&gt;")
  \/ (c = Str.dquote /\ Str.escape_char c = "&quot;")
  \/ (c = Str.squote /\ Str.escape_char c = "&#x27;")
  \/ (c <> "&"%char /\ Str.escape_char c = String c "").
Proof.
  unfold Str.escape_char.
  destruct (Ascii.eqb_spec c "&"); [auto|].
  destruct (Ascii.eqb_spec c "<"); [auto|].
  destruct (Ascii.eqb_spec c ">"); [auto 6|].
  destruct (Ascii.eqb_spec c Str.dquote); [auto 6|].
  destruct (Ascii.eqb_spec c Str.squote); [auto 8|].
  auto 10.
Qed.

(** What [escape_char] wrote is read back from the head of any text that
    starts with it. *)
Lemma escape_char_head (c d : ascii) (a b : string) :
  Str.escape_char c +:+ a = Str.escape_char d +:+ b -> c = d /\ a = b.
Proof.
  destruct (escape_char_cases c) as [[Hc ->]|[[Hc ->]|[[Hc ->]|[[Hc ->]|[[Hc ->]|[Hc ->]]]]]];
    destruct (escape_char_cases d) as [[Hd ->]|[[Hd ->]|[[Hd ->]|[[Hd ->]|[[Hd ->]|[Hd ->]]]]]];
    rewrite !append_cons; change ("" +:+ a) with a; change ("" +:+ b) with b;
    intros H; subst; try discriminate H;
    try (injection H as H; split; congruence);
    try (injection H as -> H; split; congruence).
Qed.

Lemma escape_inj (a b : string) : Str.escape a = Str.escape b -> a = b.
Proof.
  revert b. induction a as [|c a IH]; intros [|d b]; cbn [Str.escape]; intros H.
  - reflexivity.
  - destruct (escape_char_cases d) as [[_ E]|[[_ E]|[[_ E]|[[_ E]|[[_ E]|[_ E]]]]]];
      rewrite E in H; discriminate H.
  - destruct (escape_char_cases c) as [[_ E]|[[_ E]|[[_ E]|[[_ E]|[[_ E]|[_ E]]]]]];
      rewrite E in H; discriminate H.
  - apply escape_char_head in H as [-> H]. f_equal. now apply IH.
Qed.

(** X4.  What [Stream.text] prints for a text has no angle bracket and
    no quote, and two texts that print the same are the same text. *)
Theorem text_escaped (txt txt' : string) :
  Str.contains "<" (printed (EText txt)) = false
  /\ Str.contains ">" (printed (EText txt)) = false
  /\ Str.contains (String Str.dquote "") (printed (EText txt)) = false
  /\ Str.contains (String Str.squote "") (printed (EText txt)) = false
  /\ (printed (EText txt) = printed (EText txt') -> txt = txt').
Proof.
  cbn [printed].
  destruct (escape_no_angle txt) as [H1 H2].
  destruct (escape_no_quote txt) as [H3 H4].
  repeat split; try assumption. apply escape_inj.
Qed.

Lemma text_escaped_witness : "a<b & c" = "a<b & c".
Proof.
  apply (proj2 (proj2 (proj2 (proj2 (text_escaped "a<b & c" "a<b & c"))))).
  reflexivity.
Defined.
Lemma repr_char_safe (c : ascii) :
  (Ascii.eqb Str.squote c = false ->
   Str.contains (String Str.squote "") (Str.repr_char Str.squote c) = false)
  /\ (Ascii.eqb Str.dquote c = false ->
      Str.contains (String Str.dquote "") (Str.repr_char Str.squote c) = false)
  /\ (Ascii.eqb "<" c = false ->
      Str.contains "<" (Str.repr_char Str.squote c) = false)
  /\ (Ascii.eqb ">" c = false ->
      Str.contains ">" (Str.repr_char Str.squote c) = false).
Proof.
  destruct c as [[] [] [] [] [] [] [] []]; vm_compute; repeat split; congruence.
Qed.

Lemma repr_body_safe (s : string) :
  (Str.contains (String Str.squote "") s = false ->
   Str.contains (String Str.squote "") (Str.repr_body Str.squote s) = false)
  /\ (Str.contains (String Str.dquote "") s = false ->
      Str.contains (String Str.dquote "") (Str.repr_body Str.squote s) = false)
  /\ (Str.contains "<" s = false ->
      Str.contains "<" (Str.repr_body Str.squote s) = false)
  /\ (Str.contains ">" s = false ->
      Str.contains ">" (Str.repr_body Str.squote s) = false).
Proof.
  induction s as [|c s (IH1 & IH2 & IH3 & IH4)]; [repeat split; reflexivity|].
  cbn [Str.repr_body]. rewrite !contains_char_cons, !contains_char_app.
  destruct (repr_char_safe c) as (H1 & H2 & H3 & H4).
  repeat split; intros [Hc Hs]%orb_false_iff;
    (rewrite ?H1, ?H2, ?H3, ?H4, ?IH1, ?IH2, ?IH3, ?IH4 by assumption);
    reflexivity.
Qed.

(** X5.  An attribute whose value has an ASCII string is written as a
    space, its name, an equals sign and its value between single quotes,
    and the value as written has no quote of either kind and no angle
    bracket, whatever the value was. *)
Theorem attribute_value_quoted (key : string) (val : PyVal) :
  is_ascii (py_str val) = true ->
  exists body,
    tag_args [(key, val)] = " " +:+ attr_name key +:+ "='" +:+ body +:+ "'"
    /\ Str.contains "'" body = false
    /\ Str.contains (String Str.dquote "") body = false
    /\ Str.contains "<" body = false
    /\ Str.contains ">" body = false.
Proof.
  intros _.
  exists (Str.repr_body Str.squote (Str.escape (py_str val))).
  destruct (repr_body_safe (Str.escape (py_str val))) as (H1 & H2 & H3 & H4).
  destruct (escape_no_quote (py_str val)) as [Q1 Q2].
  destruct (escape_no_angle (py_str val)) as [A1 A2].
  split; [|auto].
  unfold tag_args. cbn [map Str.join fold_right].
  rewrite append_nil_r, repr_escape.
  rewrite <- !string_app_assoc, tag_args_attr. cbn [fst snd].
  rewrite !string_app_assoc. reflexivity.
Qed.

Lemma attribute_value_quoted_witness :
  exists body,
    tag_args [("title", VStr "Tom's <b>")]
    = " " +:+ attr_name "title" +:+ "='" +:+ body +:+ "'"
    /\ Str.contains "'" body = false
    /\ Str.contains (String Str.dquote "") body = false
    /\ Str.contains "<" body = false
    /\ Str.contains ">" body = false.
Proof.
  apply (attribute_value_quoted "title" (VStr "Tom's <b>")). reflexivity.
Defined.

(** ** Page renderer: callouts and missing keys *)

Lemma write_names_rest (rest : list string) :
  write_names false rest
  = (flat_map (fun i => EText " and " :: code i) rest, Ok tt).
Proof.
  induction rest as [|i rest IH]; [reflexivity|].
  cbn [write_names flat_map]. rewrite IH. reflexivity.
Qed.

Lemma crafting_callout_run (names : list string) :
  with_ (Stream.pair_tag "blockquote" [("clazz", VStr "crafting-info")])
    (Stream.text "Depicted in the book: The crafting recipe for the " ;;
     item_name <- lift (Ok (Page.Names names)) ;;
     write_names true (Page.elements item_name) ;;
     Stream.text ".")
  = (crafting_callout names, Ok tt).
Proof.
  rewrite bind_lift_ok. cbn [Page.elements].
  destruct names as [|name rest].
  - reflexivity.
  - cbn [write_names]. rewrite write_names_rest.
    cbv [with_ bind when negb Stream.text emit ret Stream.pair_tag enter exit].
    change (tag_args [("clazz", VStr "crafting-info")]) with " class='crafting-info'".
    change (tag_args []) with "".
    unfold crafting_callout, code. cbn [app]. rewrite <- !app_assoc. reflexivity.
Qed.

Lemma text_content_and (rest : list string) :
  text_content (flat_map (fun i => EText " and " :: code i) rest)
  = Str.join (map (fun i => " and " +:+ i) rest).
Proof.
  induction rest as [|i rest IH]; [reflexivity|].
  cbn [flat_map map Str.join fold_right]. rewrite text_content_app.
  fold (Str.join (map (fun i => " and " +:+ i) rest)). rewrite <- IH.
  cbn [code text_content]. now rewrite !string_app_assoc.
Qed.

Lemma join_with_prefixed (sep name : string) (rest : list string) :
  name +:+ Str.join (map (fun i => sep +:+ i) rest)
  = join_with sep (name :: rest).
Proof.
  revert name. induction rest as [|i rest IH]; intros name.
  - cbn. apply append_nil_r.
  - rewrite join_with_cons, <- IH. cbn [map Str.join fold_right].
    now rewrite !string_app_assoc.
Qed.

(** X6.  The callout of a [crafting] page with the item names [names]
    comes after the page header and before the optional text; its text
    is [Depicted in the book: The crafting recipe for the ], the names
    joined by [ and ], and a full stop, each name in a [code] element. *)
Theorem crafting_page_callout (pageid : string) (page : Page.t)
    (names : list string) :
  Page.type page = Some "patchouli:crafting" ->
  Page.item_name page = Some (Page.Names names) ->
  write_page pageid page
  = (let anchor_id := page_anchor_id pageid page in
     with_ (Stream.pair_tag_if (opt_val anchor_id) "div" [("id", opt_val anchor_id)])
       (write_page_header anchor_id page ;;
        (crafting_callout names, Ok tt) ;;
        write_text_if page) ;;
     Stream.tag "br" [])
  /\ text_content (crafting_callout names)
     = "Depicted in the book: The crafting recipe for the "
       +:+ join_with " and " names +:+ ".".
Proof.
  intros Hty Hin. split.
  - unfold write_page. rewrite Hty. cbn [getitem].
    rewrite bind_lift_ok. unfold write_page_body.
    cbn [String.eqb Ascii.eqb Bool.eqb orb andb].
    rewrite Hin. cbn [getitem]. rewrite crafting_callout_run. reflexivity.
  - unfold crafting_callout. rewrite !text_content_app.
    destruct names as [|name rest]; [reflexivity|].
    rewrite text_content_app, text_content_and.
    cbn [code text_content]. rewrite !append_nil_r.
    rewrite <- join_with_prefixed. rewrite !string_app_assoc. reflexivity.
Qed.

Lemma crafting_page_callout_witness :
  let page :=
    {| Page.type := Some "patchouli:crafting"; Page.anchor := None;
       Page.header := None; Page.title := None; Page.text := None;
       Page.url := None; Page.link_text := None;
       Page.item_name := Some (Page.Names ["Focus"; "Spellbook"]);
       Page.images := None; Page.output_name := None; Page.name := None;
       Page.input := None; Page.output := None; Page.op := None |} in
  getvalue (write_page "e1" page).1
  = "<blockquote class='crafting-info'>Depicted in the book: The crafting recipe for the <code>Focus</code> and <code>Spellbook</code>.</blockquote><br />".
Proof.
  intros page.
  rewrite (proj1 (crafting_page_callout "e1" page ["Focus"; "Spellbook"]
                    eq_refl eq_refl)).
  reflexivity.
Defined.

(** X7.  A [crafting_multi] page whose list of recipes is empty makes
    [write_page] raise [IndexError]; the callout and the [code] element
    that were open are closed before. *)
Theorem crafting_multi_empty (pageid : string) (page : Page.t)
    (item_name : Page.ItemName) :
  Page.type page = Some "hexcasting:crafting_multi" ->
  Page.item_name page = Some item_name ->
  Page.elements item_name = [] ->
  (write_page pageid page).2 = Raise IndexError
  /\ write_page_body (page_anchor_id pageid page) "hexcasting:crafting_multi" page
     = ([EOpen "blockquote" " class='crafting-info'";
         EText "Depicted in the book: Several crafting recipes, for the ";
         EOpen "code" ""; EClose "code"; EClose "blockquote"],
        Raise IndexError).
Proof.
  intros Hty Hin Hel.
  assert (Hbody :
    write_page_body (page_anchor_id pageid page) "hexcasting:crafting_multi" page
    = ([EOpen "blockquote" " class='crafting-info'";
        EText "Depicted in the book: Several crafting recipes, for the ";
        EOpen "code" ""; EClose "code"; EClose "blockquote"],
       Raise IndexError)).
  { unfold write_page_body. cbn [String.eqb Ascii.eqb Bool.eqb orb andb].
    rewrite Hin. cbn [getitem]. rewrite bind_lift_ok, Hel. reflexivity. }
  split; [|exact Hbody].
  unfold write_page. rewrite Hty. cbn [getitem].
  apply bind_raise_snd. rewrite with_snd.
  erewrite bind_ok by apply write_page_header_ok. cbn [snd].
  rewrite bind_lift_ok, Hbody. reflexivity.
Qed.

Lemma crafting_multi_empty_witness :
  let page :=
    {| Page.type := Some "hexcasting:crafting_multi"; Page.anchor := None;
       Page.header := None; Page.title := None; Page.text := None;
       Page.url := None; Page.link_text := None;
       Page.item_name := Some (Page.Names []);
       Page.images := None; Page.output_name := None; Page.name := None;
       Page.input := None; Page.output := None; Page.op := None |} in
  (write_page "e1" page).2 = Raise IndexError.
Proof.
  intros page.
  apply (proj1 (crafting_multi_empty "e1" page (Page.Names [])
                  eq_refl eq_refl eq_refl)).
Defined.

(** X8.  A page without type makes [write_page] raise
    [KeyError] for [type], after the header of the page is written and
    with the [div] of the anchor closed; no line break follows. *)
Theorem page_without_type (pageid : string) (page : Page.t) :
  Page.type page = None ->
  write_page pageid page
  = (let anchor_id := page_anchor_id pageid page in
     with_ (Stream.pair_tag_if (opt_val anchor_id) "div" [("id", opt_val anchor_id)])
       (write_page_header anchor_id page ;; raise (KeyError "type")))
  /\ (write_page pageid page).2 = Raise (KeyError "type").
Proof.
  intros Hty.
  assert (Hinner : forall anchor_id,
    (write_page_header anchor_id page ;;
     ty <- lift (getitem "type" (Page.type page)) ;;
     write_page_body anchor_id ty page)
    = (write_page_header anchor_id page ;; raise (KeyError "type"))).
  { intros anchor_id. rewrite Hty. reflexivity. }
  unfold write_page. cbv zeta. rewrite Hinner.
  assert (Hraise :
    (with_ (Stream.pair_tag_if (opt_val (page_anchor_id pageid page)) "div"
              [("id", opt_val (page_anchor_id pageid page))])
       (write_page_header (page_anchor_id pageid page) page ;;
        (raise (KeyError "type") : M unit))).2 = Raise (KeyError "type")).
  { rewrite with_snd.
    erewrite bind_ok by apply write_page_header_ok. reflexivity. }
  split.
  - erewrite bind_raise by exact Hraise.
    now rewrite <- Hraise, <- surjective_pairing.
  - now apply bind_raise_snd.
Qed.

Lemma page_without_type_witness :
  let page :=
    {| Page.type := None; Page.anchor := Some "top";
       Page.header := Some "Title"; Page.title := None; Page.text := None;
       Page.url := None; Page.link_text := None; Page.item_name := None;
       Page.images := None; Page.output_name := None; Page.name := None;
       Page.input := None; Page.output := None; Page.op := None |} in
  (write_page "e1" page).2 = Raise (KeyError "type").
Proof.
  intros page. apply (proj2 (page_without_type "e1" page eq_refl)).
Defined.
Lemma bind_ok_snd {A B} (m : M A) (k : A -> M B) (a : A) :
  m.2 = Ok a -> (bind m k).2 = (k a).2.
Proof. intros H. now erewrite bind_ok by exact H. Qed.

Lemma for_ok {A} (body : A -> M unit) (xs : list A) :
  Forall (fun x => (body x).2 = Ok tt) xs -> (for_ body xs).2 = Ok tt.
Proof.
  induction 1 as [|x xs Hx _ IH]; [reflexivity|].
  cbn [for_]. now erewrite bind_ok_snd by exact Hx.
Qed.

Lemma write_text_missing (page : Page.t) :
  Page.text page = None -> write_text page = ([], Raise (KeyError "text")).
Proof. intros H. unfold write_text. now rewrite H. Qed.

Lemma pattern_title_ok (anchor_id : option string) (page : Page.t) (k : string -> string) :
  (match Page.name page with
   | Some name =>
       with_ (Stream.pair_tag "h4" [("clazz", VStr "pattern-title")])
         (Stream.text (k name) ;; permalink_if anchor_id)
   | None => ret tt
   end).2 = Ok tt.
Proof.
  destruct (Page.name page); [|reflexivity].
  rewrite with_snd. erewrite bind_ok_snd by reflexivity. apply permalink_if_ok.
Qed.

Lemma pattern_body_without_text (anchor_id : option string) (ty : string)
    (page : Page.t) (ops : list Page.Pattern) :
  ty ∈ pattern_types ->
  Page.op page = Some ops ->
  Page.text page = None ->
  (write_page_body anchor_id ty page).2 = Raise (KeyError "text").
Proof.
  intros Hty Hop Htext. unfold pattern_types in Hty.
  assert (Hcase : ty = "hexcasting:pattern"
                  \/ ty = "hexcasting:manual_pattern_nosig"
                  \/ ty = "hexcasting:manual_pattern").
  { rewrite !elem_of_cons, elem_of_nil in Hty. tauto. }
  unfold write_page_body.
  destruct Hcase as [-> | [-> | ->]];
    cbn [String.eqb Ascii.eqb Bool.eqb orb andb];
    (erewrite bind_ok_snd;
     [|apply (pattern_title_ok anchor_id page
                (fun name =>
                   name +:+
                   (if truthy (VStr (or_empty (Page.input page)))
                       || truthy (VStr (or_empty (Page.output page)))
                    then " (" +:+ Str.strip (or_empty (Page.input page) +:+ " → "
                                             +:+ or_empty (Page.output page)) +:+ ")"
                    else "")))]);
    (erewrite bind_ok_snd;
     [|rewrite with_snd; erewrite bind_ok_snd by reflexivity;
       rewrite Hop; cbn [getitem]; rewrite bind_lift_ok;
       apply for_ok, Forall_forall; intros pattern _; reflexivity]);
    now rewrite write_text_missing.
Qed.

(** X9.  The text is not optional on text pages, link pages and the
    pages of the pattern family: without it [write_page] raises
    [KeyError] for [text] (on a pattern page, once its patterns are
    written). *)
Theorem text_is_mandatory (pageid : string) (page : Page.t) (ty : string) :
  Page.type page = Some ty ->
  Page.text page = None ->
  (ty = "patchouli:text" \/ ty = "patchouli:link" ->
   (write_page pageid page).2 = Raise (KeyError "text"))
  /\ (ty ∈ pattern_types -> is_Some (Page.op page) ->
      (write_page pageid page).2 = Raise (KeyError "text")).
Proof.
  intros Hty Htext.
  assert (Hpage : (write_page_body (page_anchor_id pageid page) ty page).2
                  = Raise (KeyError "text") ->
                  (write_page pageid page).2 = Raise (KeyError "text")).
  { intros Hbody. unfold write_page. rewrite Hty. cbn [getitem].
    apply bind_raise_snd. rewrite with_snd.
    erewrite bind_ok_snd by apply write_page_header_ok.
    now rewrite bind_lift_ok. }
  split.
  - intros [-> | ->]; apply Hpage; unfold write_page_body;
      cbn [String.eqb Ascii.eqb Bool.eqb orb andb];
      now rewrite write_text_missing.
  - intros Hpat [ops Hop]. apply Hpage.
    now apply (pattern_body_without_text _ ty page ops).
Qed.

Lemma text_is_mandatory_witness :
  let page :=
    {| Page.type := Some "hexcasting:pattern"; Page.anchor := None;
       Page.header := None; Page.title := None; Page.text := None;
       Page.url := None; Page.link_text := None; Page.item_name := None;
       Page.images := None; Page.output_name := None;
       Page.name := Some "Mind's Reflection"; Page.input := None;
       Page.output := Some "entity";
       Page.op := Some [{| Page.angle_sig := "qaq"; Page.direction := "NORTH_EAST";
                           Page.is_per_world := false |}] |} in
  (write_page "e1" page).2 = Raise (KeyError "text")
  /\ (write_page "e1" (page_of_type "patchouli:text")).2 = Raise (KeyError "text").
Proof.
  intros page. split.
  - apply (proj2 (text_is_mandatory "e1" page "hexcasting:pattern" eq_refl eq_refl)).
    + unfold pattern_types. rewrite !elem_of_cons. tauto.
    + eexists. reflexivity.
  - apply (proj1 (text_is_mandatory "e1" (page_of_type "patchouli:text")
                    "patchouli:text" eq_refl eq_refl)).
    now left.
Defined.

(** ** Page renderer: image references *)

Lemma count_char_app (c : ascii) (a b : string) :
  count_char c (a +:+ b) = count_char c a + count_char c b.
Proof.
  induction a as [|d a IH]; [reflexivity|].
  rewrite append_cons. cbn [count_char]. rewrite IH. lia.
Qed.

Lemma count_char_contains (c : ascii) (s : string) :
  count_char c s = 0 <-> Str.contains (String c "") s = false.
Proof.
  induction s as [|d s IH]; [easy|].
  rewrite contains_char_cons. cbn [count_char].
  rewrite (Ascii.eqb_sym c d). destruct (Ascii.eqb d c); cbn [orb].
  - split; [lia|discriminate].
  - exact IH.
Qed.

(** X10.  An image reference that does not have exactly one colon makes
    [write_image] raise the error of the unpacking, with nothing
    written. *)
Theorem malformed_image (img : string) :
  count_char ":" img <> 1 -> write_image img = ([], Raise UnpackError).
Proof.
  intros Hcount. unfold write_image, Str.split_on.
  pose proof (length_split_on_acc ":" "" img) as Hlen.
  destruct (Str.split_on_acc ":" "" img) as [|a [|b [|c rest]]];
    try reflexivity.
  cbn [length] in Hlen. congruence.
Qed.

Lemma malformed_image_witness :
  write_image "textures/a.png" = ([], Raise UnpackError)
  /\ write_image "hexcasting:textures:a.png" = ([], Raise UnpackError).
Proof.
  split; apply malformed_image; vm_compute; congruence.
Defined.

(** X11.  [write_image] returns exactly for the references that are
    [hexcasting:] and a path without colon: [hexcasting] is the one
    namespace of the table. *)
Theorem image_namespace (img : string) :
  (write_image img).2 = Ok tt
  <-> exists coords,
        img = "hexcasting:" +:+ coords /\ Str.contains ":" coords = false.
Proof.
  split.
  - unfold write_image, Str.split_on.
    pose proof (join_split_on_acc ":" "" img) as Hjoin.
    pose proof (length_split_on_acc ":" "" img) as Hlen.
    destruct (Str.split_on_acc ":" "" img) as [|modid [|coords [|c rest]]];
      try discriminate.
    cbn [length] in Hlen. rewrite join_with_cons in Hjoin.
    cbn [join_with] in Hjoin. change ("" +:+ img) with img in Hjoin.
    destruct (repo_names !! modid) as [base|] eqn:Hrepo; [|discriminate].
    intros _. unfold repo_names in Hrepo.
    apply lookup_singleton_Some in Hrepo as [<- _].
    exists coords. split; [now rewrite <- Hjoin|].
    apply count_char_contains.
    rewrite <- Hjoin, !count_char_app in Hlen.
    change (count_char ":" "hexcasting") with 0 in Hlen.
    change (count_char ":" ":") with 1 in Hlen. lia.
  - intros (coords & -> & Hcoords). unfold write_image.
    change ("hexcasting:" +:+ coords) with ("hexcasting" +:+ String ":" coords).
    rewrite split_on_pair by (reflexivity || exact Hcoords).
    reflexivity.
Qed.

Lemma image_namespace_witness :
  (write_image "hexcasting:textures/a.png").2 = Ok tt.
Proof.
  apply (proj2 (image_namespace "hexcasting:textures/a.png")).
  exists "textures/a.png". split; reflexivity.
Defined.

(** ** Template splicer: plain lines and spoiler directives *)

Lemma join_app (a b : list string) :
  Str.join (a ++ b) = Str.join a +:+ Str.join b.
Proof.
  induction a as [|x a IH]; [reflexivity|].
  cbn [app Str.join fold_right]. fold (Str.join (a ++ b)) (Str.join a).
  now rewrite IH, string_app_assoc.
Qed.

Lemma join_cons (x : string) (a : list string) :
  Str.join (x :: a) = x +:+ Str.join a.
Proof. reflexivity. Qed.

Lemma join_splitlines_acc (n : nat) (s cur : string) :
  String.length s <= n ->
  Str.join (Str.splitlines_acc cur s) = cur +:+ s.
Proof.
  revert s cur. induction n as [|n IH]; intros s cur Hn.
  - destruct s; [|cbn in Hn; lia].
    cbn [Str.splitlines_acc]. destruct (String.eqb_spec cur "") as [->|_];
      [reflexivity|]. reflexivity.
  - destruct s as [|c s].
    + cbn [Str.splitlines_acc]. destruct (String.eqb_spec cur "") as [->|_];
        reflexivity.
    + cbn [String.length] in Hn. cbn [Str.splitlines_acc].
      destruct (Ascii.eqb_spec c "013") as [->|_].
      * destruct s as [|d s].
        { rewrite join_cons, IH by (cbn; lia). now rewrite append_nil_r. }
        destruct (Ascii.eqb_spec d "010") as [->|Hd].
        { rewrite join_cons, IH by (cbn [String.length] in Hn; lia).
          rewrite string_app_assoc. reflexivity. }
        assert (Hs : Str.join
                       ((cur +:+ String "013" "")
                          :: Str.splitlines_acc "" (String d s))
                     = cur +:+ String "013" (String d s)).
        { rewrite join_cons, IH by lia. now rewrite string_app_assoc. }
        destruct d as [[] [] [] [] [] [] [] []]; try exact Hs.
        now contradiction Hd.
      * destruct (Str.islinebreak c).
        { rewrite join_cons, IH by lia. now rewrite string_app_assoc. }
        { rewrite IH by lia. now rewrite string_app_assoc. }
Qed.

Lemma join_splitlines (s : string) : Str.join (Str.splitlines s) = s.
Proof. apply (join_splitlines_acc (String.length s)). lia. Qed.

Lemma plain_line_printed (book : Book.t) (line : string) :
  plain_line line = true -> splice_line book line = ([EPrint line], Ok book).
Proof.
  unfold plain_line. rewrite !andb_true_iff, !negb_true_iff.
  intros [[H1 H2] H3]. unfold splice_line. now rewrite H1, H2, H3.
Qed.

Lemma plain_lines_printed (book : Book.t) (lines : list string) :
  forallb plain_line lines = true ->
  splice book lines = (map EPrint lines, Ok book).
Proof.
  induction lines as [|line lines IH]; [reflexivity|].
  cbn [forallb]. intros [Hline Hlines]%andb_true_iff.
  cbn [splice]. rewrite plain_line_printed by exact Hline.
  cbn [bind]. now rewrite IH.
Qed.

Lemma getvalue_prints (lines : list string) :
  getvalue (map EPrint lines) = Str.join lines.
Proof. unfold getvalue. rewrite map_map. now rewrite map_id. Qed.

(** X12.  An ASCII template without directive line and without marker
    line is the output of [generate_docs], whatever the book: each of its
    lines is printed as it is, line end included. *)
Theorem plain_template_unchanged (book : Book.t) (template : string) :
  is_ascii template = true ->
  forallb plain_line (Str.splitlines template) = true ->
  generate_docs book template = Ok template.
Proof.
  intros _ Hplain. unfold generate_docs.
  rewrite plain_lines_printed by exact Hplain.
  now rewrite getvalue_prints, join_splitlines.
Qed.

Lemma plain_template_unchanged_witness :
  generate_docs scenario_book
    ("<html>" +:+ Str.nl +:+ "  #SPOILER is no directive here" +:+ Str.nl
     +:+ "#DUMP_BODY_HERE")
  = Ok ("<html>" +:+ Str.nl +:+ "  #SPOILER is no directive here" +:+ Str.nl
        +:+ "#DUMP_BODY_HERE").
Proof. apply plain_template_unchanged; reflexivity. Defined.

Lemma spoiler_line_run (book : Book.t) (line : string) :
  Str.startswith "#SPOILER" line = true ->
  splice_line book line
  = ([], Ok (Book.update_spoilers book (tail (Str.split line)))).
Proof.
  intros Hline. unfold splice_line. rewrite Hline.
  apply prefix_app in Hline as [rest ->].
  change (Str.startswith "#DO_NOT_RENDER" ("#SPOILER" +:+ rest)) with false.
  cbv iota.
  destruct (split_acc_nonempty "#SPOILER" rest) as (word & words & Hsplit);
    [discriminate|].
  unfold rest_of_split, Str.split.
  change (Str.split_acc "" ("#SPOILER" +:+ rest))
    with (Str.split_acc "#SPOILER" rest).
  rewrite Hsplit. reflexivity.
Qed.

(** X13.  Every ASCII line that starts with the spoiler directive prints
    nothing and adds the words after the first to the spoiler set. *)
Theorem spoiler_line_consumed (book : Book.t) (line : string) :
  is_ascii line = true ->
  Str.startswith "#SPOILER" line = true ->
  splice_line book line
  = ([], Ok (Book.update_spoilers book (tail (Str.split line)))).
Proof. intros _. apply spoiler_line_run. Qed.

Lemma spoiler_line_consumed_witness :
  splice_line scenario_book "#SPOILER adv1 adv2"
  = ([], Ok (Book.update_spoilers scenario_book ["adv1"; "adv2"])).
Proof.
  apply (spoiler_line_consumed scenario_book "#SPOILER adv1 adv2"); reflexivity.
Defined.

Lemma splice_app (book : Book.t) (a b : list string) :
  splice book (a ++ b) = (book' <- splice book a ;; splice book' b).
Proof.
  revert book. induction a as [|line a IH]; intros book.
  - cbn [app splice]. symmetry. apply (bind_lift_ok book).
  - cbn [app splice].
    destruct (splice_line book line) as [out [book'|e]]; [|reflexivity].
    cbn [bind]. rewrite IH.
    destruct (splice book' a) as [out' [book''|e]]; cbn [bind].
    + destruct (splice book'' b) as [out'' r]. now rewrite app_assoc.
    + reflexivity.
Qed.

(** X14.  A spoiler directive on the last line of an ASCII template
    comes too late: the output is that of the template without it. *)
Theorem late_spoiler_line (book : Book.t) (template template' line : string) :
  is_ascii template = true ->
  is_ascii template' = true ->
  Str.startswith "#SPOILER" line = true ->
  Str.splitlines template' = Str.splitlines template ++ [line] ->
  generate_docs book template' = generate_docs book template.
Proof.
  intros _ _ Hline Hlines. unfold generate_docs. rewrite Hlines, splice_app.
  destruct (splice book (Str.splitlines template)) as [out [book'|e]];
    [|reflexivity].
  cbn [bind splice]. rewrite spoiler_line_run by exact Hline.
  cbn. now rewrite app_nil_r.
Qed.

Lemma late_spoiler_line_witness :
  generate_docs scenario_book
    ("#DUMP_BODY_HERE" +:+ Str.nl +:+ "#SPOILER adv1")
  = generate_docs scenario_book ("#DUMP_BODY_HERE" +:+ Str.nl).
Proof.
  apply (late_spoiler_line scenario_book ("#DUMP_BODY_HERE" +:+ Str.nl)
           ("#DUMP_BODY_HERE" +:+ Str.nl +:+ "#SPOILER adv1") "#SPOILER adv1");
    reflexivity.
Defined.

(** ** The sets of the book *)

(** X15.  After the keys of a spoiler directive are added, an entry is
    spoilered exactly when it was before or its advancement is one of
    the keys; a category that was spoilered stays so; the blacklist is
    as it was. *)
Theorem spoiler_update (book : Book.t) (keys : list string) :
  (forall entry,
     entry_spoilered (Book.update_spoilers book keys) entry = true
     <-> entry_spoilered book entry = true
         \/ exists key, Entry.advancement entry = Some key /\ key ∈ keys)
  /\ (forall category,
        category_spoilered book category = true ->
        category_spoilered (Book.update_spoilers book keys) category = true)
  /\ Book.blacklist (Book.update_spoilers book keys) = Book.blacklist book.
Proof.
  assert (Hentry : forall entry,
     entry_spoilered (Book.update_spoilers book keys) entry = true
     <-> entry_spoilered book entry = true
         \/ exists key, Entry.advancement entry = Some key /\ key ∈ keys).
  { intros entry. rewrite !entry_spoilered_iff. cbn [Book.update_spoilers Book.spoilers].
    rewrite elem_of_union, elem_of_list_to_set, list_elem_of_fmap.
    split; intros [H|(key & Hk & Hin)]; auto; right; exists key; auto. }
  split; [exact Hentry|]. split; [|reflexivity].
  intros category. unfold category_spoilered. rewrite !forallb_forall.
  intros Hall entry Hin. apply Hentry. left. now apply Hall.
Qed.

Lemma for_ok_iff {A} (body : A -> M unit) (xs : list A) :
  (for_ body xs).2 = Ok tt <-> Forall (fun x => (body x).2 = Ok tt) xs.
Proof.
  split; [|apply for_ok].
  induction xs as [|x xs IH]; [constructor|].
  cbn [for_]. destruct (body x) as [out [[]|e]] eqn:Hx; [|discriminate].
  erewrite bind_ok_snd by reflexivity. intros H.
  constructor; [now rewrite Hx|now apply IH].
Qed.

Lemma write_lines_ok (first : bool) (lines : list string) :
  (write_lines first lines).2 = Ok tt.
Proof. apply write_lines_run. Qed.

Lemma write_block_ok_iff (block : Block) :
  (write_block block).2 = Ok tt <-> styles_ok block = true.
Proof.
  induction block as [s|style children IH] using Block_children_ind.
  - cbn [write_block styles_ok]. split; [reflexivity|].
    intros _. apply write_lines_ok.
  - cbn [write_block styles_ok].
    assert (Hchildren :
      (for_ write_block children).2 = Ok tt
      <-> forallb styles_ok children = true).
    { rewrite for_ok_iff, forallb_forall, Forall_forall.
      rewrite Forall_forall in IH.
      split; intros H child Hin.
      - apply IH; [now apply list_elem_of_In|]. apply H. now apply list_elem_of_In.
      - apply IH; [exact Hin|]. apply H. now apply list_elem_of_In. }
    destruct (String.eqb (type style) "base"); cbn [orb andb].
    + exact Hchildren.
    + destruct (get_format (type style) (value style)) as [tag|e]; cbn [andb].
      * rewrite bind_lift_ok, with_snd. exact Hchildren.
      * split; discriminate.
Qed.

(** X16.  [write_block] returns exactly on the blocks in which every
    style is [base] or one that [get_format] takes with its value. *)
Theorem block_returns_iff (block : Block) :
  (write_block block).2 = Ok tt <-> styles_ok block = true.
Proof. apply write_block_ok_iff. Qed.

Lemma block_returns_iff_witness :
  (write_block
     (BTree {| type := "base"; value := VNone |}
        [BStr "See "; BTree {| type := "link"; value := VStr "basics#intro" |}
                        [BStr "the basics"]])).2
  = Ok tt.
Proof. apply block_returns_iff. reflexivity. Defined.

Lemma spoiler_update_witness :
  entry_spoilered (Book.update_spoilers scenario_book ["adv1"]) scenario_e1 = true.
Proof.
  apply (proj1 (spoiler_update scenario_book ["adv1"])).
  right. exists "adv1". split; [reflexivity|]. apply list_elem_of_singleton. reflexivity.
Defined.

(** ** Table of contents *)

Lemma elem_of_bind_l {A B} (m : M A) (k : A -> M B) (e : Emit) :
  e ∈ m.1 -> e ∈ (bind m k).1.
Proof.
  intros He. destruct (bind_prefix m k) as [rest ->].
  apply elem_of_app. now left.
Qed.

Lemma elem_of_bind_r {A B} (m : M A) (k : A -> M B) (a : A) (e : Emit) :
  m.2 = Ok a -> e ∈ (k a).1 -> e ∈ (bind m k).1.
Proof.
  intros Hm He. erewrite bind_ok by exact Hm. cbn [fst].
  apply elem_of_app. now right.
Qed.

Lemma elem_of_with {A} (c : Ctx) (body : M A) (e : Emit) :
  e ∈ body.1 -> e ∈ (with_ c body).1.
Proof.
  intros He. rewrite with_eq. cbn [fst].
  rewrite !elem_of_app. auto.
Qed.

Lemma elem_of_for {A} (body : A -> M unit) (xs : list A) (x : A) (e : Emit) :
  Forall (fun y => (body y).2 = Ok tt) xs ->
  x ∈ xs -> e ∈ (body x).1 -> e ∈ (for_ body xs).1.
Proof.
  intros Hok Hx He. induction Hok as [|y xs Hy _ IH]; [now apply elem_of_nil in Hx|].
  cbn [for_]. apply elem_of_cons in Hx as [<-|Hx].
  - now apply elem_of_bind_l.
  - apply (elem_of_bind_r _ _ tt); [exact Hy|]. now apply IH.
Qed.

Lemma text_of_ok (x : Block) : is_str x = true -> (text_of x).2 = Ok tt.
Proof. now destruct x. Qed.

(** X17.  When the names of the categories and of their entries are
    strings, [write_toc] returns and the table of contents has the link
    of every entry of every category, on the blacklist or not. *)
Theorem toc_lists_every_entry (book : Book.t) (category : Category.t)
    (entry : Entry.t) :
  Forall (fun c =>
            is_str (Category.name c) = true
            /\ Forall (fun e => is_str (Entry.name e) = true) (Category.entries c))
    (Book.categories book) ->
  category ∈ Book.categories book ->
  entry ∈ Category.entries category ->
  (write_toc book).2 = Ok tt
  /\ toc_link book entry ∈ (write_toc book).1.
Proof.
  intros Hnames Hcat Hentry.
  set (entry_body := fun e : Entry.t =>
         with_ (Stream.pair_tag "li" [])
           (with_ (Stream.pair_tag "a"
                     [("href", VStr ("#" +:+ Entry.id e));
                      ("clazz", VStr (if entry_spoilered book e
                                      then "spoilered" else ""))])
              (text_of (Entry.name e)))).
  set (category_body := fun c : Category.t =>
         with_ (Stream.pair_tag "details" [("clazz", VStr "toc-category")])
           (with_ (Stream.pair_tag "summary" [])
              (with_ (Stream.pair_tag "a"
                        [("href", VStr ("#" +:+ Category.id c));
                         ("clazz", VStr (if category_spoilered book c
                                         then "spoilered" else ""))])
                 (text_of (Category.name c))) ;;
            with_ (Stream.pair_tag "ul" [])
              (for_ entry_body (Category.entries c)))).
  assert (Hentries : forall c,
            Forall (fun e => is_str (Entry.name e) = true) (Category.entries c) ->
            Forall (fun e => (entry_body e).2 = Ok tt) (Category.entries c)).
  { intros c Hc. eapply Forall_impl; [exact Hc|].
    intros e He. unfold entry_body. rewrite !with_snd. now apply text_of_ok. }
  assert (Hcats : Forall (fun c => (category_body c).2 = Ok tt)
                    (Book.categories book)).
  { eapply Forall_impl; [exact Hnames|]. intros c [Hc He].
    unfold category_body. rewrite with_snd.
    erewrite bind_ok_snd by (rewrite !with_snd; now apply text_of_ok).
    rewrite with_snd. now apply for_ok, Hentries. }
  change (write_toc book) with
    (with_ (Stream.pair_tag "h2"
              [("id", VStr "table-of-contents"); ("clazz", VStr "page-header")])
       (Stream.text "Table of Contents" ;;
        with_ (Stream.pair_tag "a"
                 [("href", VStr "javascript:void(0)");
                  ("clazz", VStr "permalink toggle-link small");
                  ("data_target", VStr "toc-category");
                  ("title", VStr "Toggle all")])
          (Stream.empty_pair_tag "i" [("clazz", VStr "bi bi-list-nested")]) ;;
        permalink "#table-of-contents") ;;
     for_ category_body (Book.categories book)).
  split.
  - erewrite bind_ok_snd by reflexivity. now apply for_ok.
  - apply (elem_of_bind_r _ _ tt); [reflexivity|].
    apply (elem_of_for _ _ category); [exact Hcats|exact Hcat|].
    unfold category_body. apply elem_of_with.
    apply (elem_of_bind_r _ _ tt).
    { rewrite !with_snd. apply text_of_ok.
      rewrite Forall_forall in Hnames. now apply Hnames. }
    apply elem_of_with.
    apply (elem_of_for _ _ entry); [|exact Hentry|].
    { apply Hentries. rewrite Forall_forall in Hnames. now apply Hnames. }
    unfold entry_body. apply elem_of_with. rewrite with_eq. cbn [fst enter Stream.pair_tag].
    apply elem_of_cons. now left.
Qed.

Lemma toc_lists_every_entry_witness :
  let book := Book.update_blacklist scenario_book ["e2"] in
  toc_link book scenario_e2 ∈ (write_toc book).1.
Proof.
  intros book.
  apply (toc_lists_every_entry book
           {| Category.id := "c1"; Category.name := BStr "Basics";
              Category.description := BStr "The basics.";
              Category.entries := [scenario_e1; scenario_e2] |} scenario_e2).
  - repeat constructor.
  - apply list_elem_of_singleton. reflexivity.
  - apply elem_of_cons. right. apply list_elem_of_singleton. reflexivity.
Defined.

(** ** Style formatter and splicing, in general *)

(** X18.  When [get_format] returns, the style type is one of the ten
    and what it returns is a pair tag of one of the elements [p], [span],
    [a], [strong], [i], [s]. *)
Theorem get_format_known (ty : string) (val : PyVal) (tag : Ctx) :
  get_format ty val = Ok tag ->
  ty ∈ style_tags
  /\ exists name kwargs, tag = PairTag name kwargs /\ name ∈ style_elements.
Proof.
  intros Hok. split.
  - destruct (decide (ty ∈ style_tags)) as [Hin|Hout]; [exact Hin|].
    rewrite get_format_unknown in Hok by exact Hout. discriminate.
  - revert Hok. unfold get_format, Stream.pair_tag, style_elements.
    repeat match goal with
           | |- context [if ?b then _ else _] => destruct b
           | |- context [match val with _ => _ end] => destruct val
           end;
      intros [= <-] || discriminate; eexists _, _;
      (split; [reflexivity|]); rewrite !elem_of_cons; tauto.
Qed.

Lemma get_format_known_witness :
  "tooltip" ∈ style_tags.
Proof.
  apply (get_format_known "tooltip" (VStr "hint")
           (PairTag "span" " class='has-tooltip' title='hint'")).
  reflexivity.
Defined.

Lemma getvalue_app (a b : list Emit) :
  getvalue (a ++ b) = getvalue a +:+ getvalue b.
Proof. unfold getvalue. now rewrite map_app, join_app. Qed.

Lemma marker_line (book : Book.t) :
  (write_book book).2 = Ok tt ->
  splice_line book ("#DUMP_BODY_HERE" +:+ Str.nl)
  = ((write_book book).1 ++ [EPrint Str.nl], Ok book).
Proof.
  intros Hok. unfold splice_line.
  change (Str.startswith "#DO_NOT_RENDER" ("#DUMP_BODY_HERE" +:+ Str.nl)) with false.
  change (Str.startswith "#SPOILER" ("#DUMP_BODY_HERE" +:+ Str.nl)) with false.
  rewrite String.eqb_refl. cbv iota.
  change (bind (ret book) ?k) with (bind (lift (Ok book)) k).
  rewrite bind_lift_ok.
  erewrite bind_ok by exact Hok. reflexivity.
Qed.

(** X19.  When the template is ASCII, the lines around its marker line
    are plain and [write_book] returns, the output of [generate_docs] is
    the lines before the marker, what [write_book] wrote, a line feed,
    and the lines after the marker. *)
Theorem body_spliced (book : Book.t) (template : string)
    (before after : list string) :
  is_ascii template = true ->
  Str.splitlines template
  = before ++ ("#DUMP_BODY_HERE" +:+ Str.nl) :: after ->
  forallb plain_line before = true ->
  forallb plain_line after = true ->
  (write_book book).2 = Ok tt ->
  generate_docs book template
  = Ok (Str.join before +:+ getvalue (write_book book).1 +:+ Str.nl
        +:+ Str.join after).
Proof.
  intros _ Hlines Hbefore Hafter Hok. unfold generate_docs.
  rewrite Hlines, splice_app, plain_lines_printed by exact Hbefore.
  rewrite (bind_lift_ok book (fun book' => splice book' _)) || cbn [bind].
  cbn [splice]. rewrite marker_line by exact Hok. cbn [bind].
  rewrite plain_lines_printed by exact Hafter.
  rewrite !getvalue_app, !getvalue_prints.
  rewrite !string_app_assoc. reflexivity.
Qed.

(** X20.  A spoiler directive on the first line of an ASCII template has
    the effect of its keys being in the spoiler set of the book from the
    start. *)
Theorem early_spoiler_line (book : Book.t) (template template' line : string) :
  is_ascii template = true ->
  is_ascii template' = true ->
  Str.startswith "#SPOILER" line = true ->
  Str.splitlines template' = line :: Str.splitlines template ->
  generate_docs book template'
  = generate_docs (Book.update_spoilers book (tail (Str.split line))) template.
Proof.
  intros _ _ Hline Hlines. unfold generate_docs. rewrite Hlines. cbn [splice].
  rewrite spoiler_line_run by exact Hline.
  change (bind ([], Ok ?b) ?k) with (bind (lift (Ok b)) k).
  now rewrite bind_lift_ok.
Qed.

Lemma replace_app (old : ascii) (new a b : string) :
  Str.replace old new (a +:+ b) = Str.replace old new a +:+ Str.replace old new b.
Proof.
  induction a as [|c a IH]; [reflexivity|].
  rewrite append_cons. cbn [Str.replace]. now rewrite IH, string_app_assoc.
Qed.

Lemma join_split_on_acc_removed (sep : ascii) (cur s : string) :
  Str.join (Str.split_on_acc sep cur s) = cur +:+ Str.replace sep "" s.
Proof.
  revert cur. induction s as [|c s IH]; intros cur; [reflexivity|].
  cbn [Str.split_on_acc Str.replace]. destruct (Ascii.eqb c sep).
  - rewrite join_cons, IH. reflexivity.
  - rewrite IH, string_app_assoc. reflexivity.
Qed.

Lemma text_content_texts (out : list Emit) :
  text_content out = Str.join (texts out).
Proof.
  induction out as [|e out IH]; [reflexivity|].
  destruct e; cbn [text_content texts]; try exact IH.
  now rewrite join_cons, IH.
Qed.

Lemma text_content_with {A} (c : Ctx) (body : M A) :
  text_content (with_ c body).1 = text_content body.1.
Proof.
  rewrite with_eq. cbn [fst]. rewrite !text_content_app.
  destruct c; cbn [enter exit text_content]; now rewrite append_nil_r.
Qed.

Lemma text_content_for {A} (body : A -> M unit) (f : A -> string)
    (xs : list A) :
  Forall (fun x => (body x).2 = Ok tt /\ text_content (body x).1 = f x) xs ->
  text_content (for_ body xs).1 = Str.join (map f xs).
Proof.
  induction 1 as [|x xs [Hok Hx] _ IH]; [reflexivity|].
  cbn [for_ map]. erewrite bind_ok by exact Hok. cbn [fst].
  now rewrite text_content_app, Hx, IH, join_cons.
Qed.

Lemma replace_join (old : ascii) (new : string) (parts : list string) :
  Str.replace old new (Str.join parts)
  = Str.join (map (Str.replace old new) parts).
Proof.
  induction parts as [|p parts IH]; [reflexivity|].
  cbn [map]. now rewrite !join_cons, replace_app, IH.
Qed.

(** X21.  When [write_block] returns, the text it wrote is the strings
    of the block in their order, without the line feeds. *)
Theorem block_text (block : Block) :
  styles_ok block = true ->
  text_content (write_block block).1 = Str.replace "010" "" (leaves block).
Proof.
  induction block as [s|style children IH] using Block_children_ind.
  - intros _. cbn [write_block leaves]. rewrite text_content_texts.
    destruct (write_lines_run false (Str.split_on "010" s)) as (_ & -> & _).
    apply (join_split_on_acc_removed "010" "" s).
  - cbn [styles_ok write_block leaves].
    intros [Hstyle Hchildren]%andb_true_iff.
    assert (Hfor : text_content (for_ write_block children).1
                   = Str.replace "010" "" (Str.join (map leaves children))).
    { rewrite replace_join, map_map. apply text_content_for.
      rewrite forallb_forall in Hchildren. rewrite Forall_forall in IH |- *.
      intros child Hin. apply list_elem_of_In in Hin as Hin'. split.
      - apply write_block_ok_iff. now apply Hchildren.
      - apply IH; [exact Hin|]. now apply Hchildren. }
    destruct (String.eqb (type style) "base"); [exact Hfor|].
    cbn [orb] in Hstyle.
    destruct (get_format (type style) (value style)) as [tag|e]; [|discriminate].
    now rewrite bind_lift_ok, text_content_with.
Qed.

Lemma body_spliced_witness :
  generate_docs scenario_book
    ("<main>" +:+ Str.nl +:+ "#DUMP_BODY_HERE" +:+ Str.nl +:+ "</main>")
  = Ok ("<main>" +:+ Str.nl +:+ getvalue (write_book scenario_book).1 +:+ Str.nl
        +:+ "</main>").
Proof.
  apply (body_spliced scenario_book
           ("<main>" +:+ Str.nl +:+ "#DUMP_BODY_HERE" +:+ Str.nl +:+ "</main>")
           ["<main>" +:+ Str.nl] ["</main>"]);
    reflexivity.
Defined.

Lemma early_spoiler_line_witness :
  generate_docs scenario_book
    ("#SPOILER adv1" +:+ Str.nl +:+ "#DUMP_BODY_HERE" +:+ Str.nl)
  = generate_docs (Book.update_spoilers scenario_book ["adv1"])
      ("#DUMP_BODY_HERE" +:+ Str.nl).
Proof.
  apply (early_spoiler_line scenario_book ("#DUMP_BODY_HERE" +:+ Str.nl)
           ("#SPOILER adv1" +:+ Str.nl +:+ "#DUMP_BODY_HERE" +:+ Str.nl)
           ("#SPOILER adv1" +:+ Str.nl));
    reflexivity.
Defined.

Lemma block_text_witness :
  text_content
    (write_block
       (BTree {| type := "bold"; value := VNone |}
          [BStr ("one" +:+ Str.nl +:+ "two"); BStr " three"])).1
  = "onetwo three".
Proof.
  rewrite block_text by reflexivity. reflexivity.
Defined.

(** ** Page renderer: patterns *)

Lemma repr_escape_plain (s : string) :
  plain (Str.escape s) = true ->
  Str.repr (Str.escape s) = "'" +:+ Str.escape s +:+ "'".
Proof.
  intros Hp. rewrite repr_escape, repr_body_plain;
    [reflexivity|exact Hp|apply escape_no_quote].
Qed.

(** X22.  For a pattern whose angle signature and direction are ASCII
    and, escaped, made of printable characters other than the
    backslash, [write_pattern] writes a
    [canvas] with the class, the two sizes, the angle signature, the
    direction in lower case and the per-world flag as [True] or [False],
    around the fallback text with the angle signature. *)
Theorem pattern_canvas (pattern : Page.Pattern) :
  is_ascii (Page.angle_sig pattern) = true ->
  is_ascii (Page.direction pattern) = true ->
  plain (Str.escape (Page.angle_sig pattern)) = true ->
  plain (Str.escape (Str.lower (Page.direction pattern))) = true ->
  write_pattern pattern
  = ([EOpen "canvas" (canvas_args pattern);
      EText ("Your browser does not support visualizing patterns. Pattern code: "
             +:+ Page.angle_sig pattern);
      EClose "canvas"],
     Ok tt).
Proof.
  intros _ _ Hsig Hdir.
  unfold write_pattern, Stream.pair_tag, tag_args, canvas_args.
  destruct (Page.is_per_world pattern); cbn [map fst snd py_str];
    rewrite !repr_escape_plain by (exact Hsig || exact Hdir || reflexivity);
    cbn [Str.join fold_right]; rewrite !string_app_assoc; reflexivity.
Qed.

Lemma pattern_canvas_witness :
  getvalue
    (write_pattern
       {| Page.angle_sig := "qaq"; Page.direction := "NORTH_EAST";
          Page.is_per_world := false |}).1
  = "<canvas class='spell-viz' width='216' height='216' data-string='qaq' data-start='north_east' data-per-world='False'>Your browser does not support visualizing patterns. Pattern code: qaq</canvas>".
Proof.
  rewrite pattern_canvas by reflexivity. reflexivity.
Defined.

Lemma rstrip_app (a b : string) :
  Str.rstrip b = b -> b <> "" -> Str.rstrip (a +:+ b) = a +:+ b.
Proof.
  intros Hb Hne. induction a as [|c a IH]; [exact Hb|].
  rewrite append_cons. cbn [Str.rstrip]. rewrite IH.
  destruct (a +:+ b) eqn:E; [|reflexivity].
  destruct a; [now subst|discriminate].
Qed.

Lemma rstrip_space (a : string) (c : ascii) :
  Str.isspace c = true -> Str.rstrip (a +:+ String c "") = Str.rstrip a.
Proof.
  intros Hc. induction a as [|d a IH].
  - change ("" +:+ String c "") with (String c "").
    cbn [Str.rstrip]. now rewrite Hc.
  - rewrite append_cons. cbn [Str.rstrip]. now rewrite IH.
Qed.

Lemma lstrip_head (c : ascii) (s : string) :
  Str.isspace c = false -> Str.lstrip (String c s) = String c s.
Proof. intros H. cbn [Str.lstrip]. now rewrite H. Qed.

(** X23.  A pattern page with a name and with ASCII input and output
    starts with its title: the name alone when input and output are both
    absent or empty, and otherwise
    the name and, in parentheses, the input, the arrow and the output,
    the space next to a missing side being stripped. *)
Theorem pattern_title (anchor_id : option string) (ty : string) (page : Page.t)
    (name : string) :
  ty ∈ pattern_types ->
  Page.name page = Some name ->
  is_ascii (or_empty (Page.input page)) = true ->
  is_ascii (or_empty (Page.output page)) = true ->
  let inp := or_empty (Page.input page) in
  let oup := or_empty (Page.output page) in
  exists title rest,
    (write_page_body anchor_id ty page).1
    = EOpen "h4" " class='pattern-title'" :: EText title :: rest
    /\ (inp = "" -> oup = "" -> title = name)
    /\ (inp = "" -> oup <> "" -> Str.rstrip oup = oup ->
        title = name +:+ " (→ " +:+ oup +:+ ")")
    /\ (forall c s, inp = String c s -> Str.isspace c = false -> oup = "" ->
        title = name +:+ " (" +:+ inp +:+ " →)")
    /\ (forall c s, inp = String c s -> Str.isspace c = false ->
        oup <> "" -> Str.rstrip oup = oup ->
        title = name +:+ " (" +:+ inp +:+ " → " +:+ oup +:+ ")").
Proof.
  intros Hty Hname _ _ inp oup.
  assert (Hcase : ty = "hexcasting:pattern"
                  \/ ty = "hexcasting:manual_pattern_nosig"
                  \/ ty = "hexcasting:manual_pattern").
  { unfold pattern_types in Hty. rewrite !elem_of_cons, elem_of_nil in Hty. tauto. }
  exists (name +:+
          (if truthy (VStr inp) || truthy (VStr oup)
           then " (" +:+ Str.strip (inp +:+ " → " +:+ oup) +:+ ")" else "")).
  assert (Hbody : exists rest,
    (write_page_body anchor_id ty page).1
    = EOpen "h4" " class='pattern-title'"
      :: EText (name +:+
                (if truthy (VStr inp) || truthy (VStr oup)
                 then " (" +:+ Str.strip (inp +:+ " → " +:+ oup) +:+ ")" else ""))
      :: rest).
  { unfold write_page_body.
    destruct Hcase as [-> | [-> | ->]];
      cbn [String.eqb Ascii.eqb Bool.eqb orb andb]; rewrite Hname;
      match goal with |- context [bind ?m ?k] =>
        destruct (bind_prefix m k) as [rest1 ->] end;
      rewrite with_eq; cbn [fst enter Stream.pair_tag];
      match goal with |- context [bind ?m ?k] =>
        destruct (bind_prefix m k) as [rest2 ->] end;
      eexists; cbn [Stream.text emit fst app]; reflexivity. }
  destruct Hbody as [rest Hbody]. exists rest. split; [exact Hbody|].
  repeat split.
  - intros -> ->. cbn. apply append_nil_r.
  - intros -> Hne Hr. cbn [truthy orb].
    destruct oup as [|d oup']; [contradiction|]. cbn [String.eqb negb].
    unfold Str.strip.
    change (Str.lstrip ("" +:+ " → " +:+ String d oup'))
      with ("→ " +:+ String d oup').
    now rewrite rstrip_app by assumption.
  - intros c s -> Hc ->. cbn [truthy String.eqb negb orb].
    unfold Str.strip. rewrite (append_cons c s), lstrip_head by exact Hc.
    rewrite <- (append_cons c s).
    change (String c s +:+ " → " +:+ "") with (String c s +:+ " →" +:+ " ").
    rewrite <- (string_app_assoc (String c s) " →" " ").
    rewrite rstrip_space by reflexivity.
    change (String c s +:+ " →") with (String c s +:+ " " +:+ "→").
    rewrite <- (string_app_assoc (String c s) " " "→").
    rewrite (rstrip_app (String c s +:+ " ") "→") by (reflexivity || discriminate).
    rewrite !string_app_assoc. reflexivity.
  - intros c s -> Hc Hne Hr. cbn [truthy String.eqb negb orb].
    unfold Str.strip. rewrite (append_cons c s), lstrip_head by exact Hc.
    rewrite <- (append_cons c s).
    rewrite <- (string_app_assoc (String c s) " → " oup).
    rewrite rstrip_app by assumption.
    rewrite !string_app_assoc. reflexivity.
Qed.

Lemma pattern_title_witness :
  let page :=
    {| Page.type := Some "hexcasting:pattern"; Page.anchor := None;
       Page.header := None; Page.title := None; Page.text := None;
       Page.url := None; Page.link_text := None; Page.item_name := None;
       Page.images := None; Page.output_name := None;
       Page.name := Some "Mind's Reflection"; Page.input := None;
       Page.output := Some "entity"; Page.op := None |} in
  exists title rest,
    (write_page_body None "hexcasting:pattern" page).1
    = EOpen "h4" " class='pattern-title'" :: EText title :: rest
    /\ title = "Mind's Reflection (→ entity)".
Proof.
  intros page.
  destruct (pattern_title None "hexcasting:pattern" page "Mind's Reflection")
    as (title & rest & Hbody & _ & Hout & _).
  - unfold pattern_types. rewrite !elem_of_cons. tauto.
  - reflexivity.
  - reflexivity.
  - reflexivity.
  - exists title, rest. split; [exact Hbody|].
    apply Hout; [reflexivity|discriminate|reflexivity].
Defined.
